(** * SRP-6a (JohanDroz/srp): a shallow embedding of the client, server and
    verifier generator, and the properties of its specification.

    Layout: the data model and every operation first (bytes and big integers,
    SHA-1, the math kernel, the storage backend, the option functions and
    constructors, the protocol steps), then the lemmas and the theorems. *)

From Stdlib Require Import ZArith Lia List Bool.
From Stdlib Require Import Strings.String Strings.Ascii Strings.Byte.
From Stdlib Require Import Zpow_facts.
From Bignums Require Import BigZ.
From stdpp Require Import base option gmap strings.
Import ListNotations.

Local Open Scope Z_scope.

(* ===================================================================== *)
(** * Bytes and big integers                                              *)
(* ===================================================================== *)

Module Bytes.

(** A Go [[]byte] that is not nil; the nil slice is [None] where it matters. *)
Definition bytes := list byte.

Definition byte_of_Z (z : Z) : byte :=
  match Byte.of_N (Z.to_N (z mod 256)) with
  | Some b => b
  | None => x00
  end.

Definition Z_of_byte (b : byte) : Z := Z.of_N (Byte.to_N b).

(** [string] to [[]byte] conversion of Go: the bytes of the string. *)
Definition of_string (s : string) : bytes := list_byte_of_string s.

(** [big.Int.SetBytes]: the bytes read as a big-endian unsigned integer. *)
Definition SetBytes (bs : bytes) : Z :=
  fold_left (fun acc b => acc * 256 + Z_of_byte b) bs 0.

(** Number of bytes of the big-endian form of [|z|] without leading zeros. *)
Definition byteLen (z : Z) : nat :=
  if Z.abs z =? 0 then 0%nat else Z.to_nat (Z.log2 (Z.abs z) / 8 + 1).

(** The [n] low bytes of [z], most significant first. *)
Fixpoint low_bytes (n : nat) (z : Z) : bytes :=
  match n with
  | O => []
  | S n' => byte_of_Z (Z.shiftr z (8 * Z.of_nat n')) :: low_bytes n' z
  end.

(** [big.Int.Bytes]: the big-endian bytes of the absolute value. *)
Definition Bytes (z : Z) : bytes := low_bytes (byteLen z) (Z.abs z).

(** Square-and-multiply on the binary digits of the exponent. *)
Fixpoint powmod_pos (x : Z) (e : positive) (m : Z) : Z :=
  match e with
  | xH => x mod m
  | xO e' => let r := powmod_pos x e' m in (r * r) mod m
  | xI e' => let r := powmod_pos x e' m in (((r * r) mod m) * x) mod m
  end.

(** [big.Int.Exp(x, y, m)]: x to the power y modulo |m|; an exponent that
    is not positive gives 1. *)
Definition Exp (x y m : Z) : Z :=
  match y with
  | Zpos p => powmod_pos x p (Z.abs m)
  | _ => 1 mod Z.abs m
  end.

End Bytes.
Export Bytes.

(* ===================================================================== *)
(** * SHA-1 (FIPS 180-4), the hash of the RFC 5054 vector                 *)
(* ===================================================================== *)

Module SHA1.

Definition mask32 : Z := 0xFFFFFFFF.
Definition w32 (x : Z) : Z := Z.land x mask32.
Definition add32 (x y : Z) : Z := w32 (x + y).
Definition rotl (n x : Z) : Z :=
  w32 (Z.lor (Z.shiftl x n) (Z.shiftr x (32 - n))).
Definition not32 (x : Z) : Z := Z.lxor x mask32.

(** Section 4.1.1: the round functions. *)
Definition f (t : nat) (b c d : Z) : Z :=
  if (t <? 20)%nat then Z.lor (Z.land b c) (Z.land (not32 b) d)
  else if (t <? 40)%nat then Z.lxor (Z.lxor b c) d
  else if (t <? 60)%nat then
    Z.lor (Z.lor (Z.land b c) (Z.land b d)) (Z.land c d)
  else Z.lxor (Z.lxor b c) d.

(** Section 4.2.1: the round constants. *)
Definition K (t : nat) : Z :=
  if (t <? 20)%nat then 0x5A827999
  else if (t <? 40)%nat then 0x6ED9EBA1
  else if (t <? 60)%nat then 0x8F1BBCDC
  else 0xCA62C1D6.

(** Section 5.1.1: the message followed by 0x80, zeros, and the length in
    bits on eight bytes, up to a multiple of 64 bytes. *)
Definition padding (len : nat) : bytes :=
  let zeros := ((55 + 64 - len mod 64) mod 64)%nat in
  x80 :: repeat x00 zeros ++ low_bytes 8 (8 * Z.of_nat len).

Definition word_of (b0 b1 b2 b3 : byte) : Z :=
  SetBytes [b0; b1; b2; b3].

Fixpoint words (bs : bytes) : list Z :=
  match bs with
  | b0 :: b1 :: b2 :: b3 :: rest => word_of b0 b1 b2 b3 :: words rest
  | _ => []
  end.

(** Section 6.1.2, step 1: the message schedule, newest word first. *)
Fixpoint schedule (n : nat) (rev_ws : list Z) : list Z :=
  match n with
  | O => rev_ws
  | S n' =>
      let w := rotl 1 (Z.lxor (Z.lxor (nth 2 rev_ws 0) (nth 7 rev_ws 0))
                              (Z.lxor (nth 13 rev_ws 0) (nth 15 rev_ws 0))) in
      schedule n' (w :: rev_ws)
  end.

Record regs := Regs { ra : Z; rb : Z; rc : Z; rd : Z; re : Z }.

Definition round (r : regs) (tw : nat * Z) : regs :=
  let '(t, w) := tw in
  let T := add32 (add32 (add32 (add32 (rotl 5 (ra r)) (f t (rb r) (rc r) (rd r)))
                                (re r)) (K t)) w in
  Regs T (ra r) (rotl 30 (rb r)) (rc r) (rd r).

Definition indexed (ws : list Z) : list (nat * Z) :=
  combine (seq 0 (length ws)) ws.

Definition compress (h : regs) (block : list Z) : regs :=
  let ws := rev (schedule 64 (rev block)) in
  let r := fold_left round (indexed ws) h in
  Regs (add32 (ra h) (ra r)) (add32 (rb h) (rb r)) (add32 (rc h) (rc r))
       (add32 (rd h) (rd r)) (add32 (re h) (re r)).

Fixpoint blocks (n : nat) (ws : list Z) : list (list Z) :=
  match n with
  | O => []
  | S n' => firstn 16 ws :: blocks n' (skipn 16 ws)
  end.

Definition H0 : regs :=
  Regs 0x67452301 0xEFCDAB89 0x98BADCFE 0x10325476 0xC3D2E1F0.

Definition sum (msg : bytes) : bytes :=
  let padded := msg ++ padding (length msg) in
  let ws := words padded in
  let h := fold_left compress (blocks (length ws / 16) ws) H0 in
  low_bytes 4 (ra h) ++ low_bytes 4 (rb h) ++ low_bytes 4 (rc h)
    ++ low_bytes 4 (rd h) ++ low_bytes 4 (re h).

End SHA1.

(* ===================================================================== *)
(** * The SRP math kernel                                                 *)
(* ===================================================================== *)

(** A hash constructor [func() hash.Hash] is used in one way only: a fresh
    state, some writes, and [Sum(nil)]. It is the function from the bytes
    written to the digest. *)
Definition HashFn := bytes -> bytes.

(** Modelled from the spec: [funcX], the type of the two password-X functions
    of the missing kernel file, called as [computeX(fHash, salt, userID,
    password)]. *)
Definition funcX := HashFn -> bytes -> string -> string -> Z.

Module Kernel.

(** Modelled from the spec: the kernel source file is missing; the padding
    [PAD(x)] is x serialized to the byte length of N, left-zero-padded. *)
Definition pad (b : bytes) (size : nat) : bytes :=
  repeat x00 (size - length b) ++ b.

(** Modelled from the spec: the kernel source file is missing;
    [k = H(N || PAD(g))], taken modulo N. *)
Definition computeMultiplier (fHash : HashFn) (prime generator : Z) : Z :=
  SetBytes (fHash (Bytes prime ++ pad (Bytes generator) (length (Bytes prime))))
    mod prime.

(** Modelled from the spec: the kernel source file is missing;
    [x = H(s || H(I || ":" || P))], the RFC 5054 form. *)
Definition computeXWithUsername : funcX := fun fHash salt userID password =>
  SetBytes (fHash (salt ++
    fHash (Bytes.of_string userID ++ Bytes.of_string ":" ++ Bytes.of_string password))).

(** Modelled from the spec: the kernel source file is missing;
    [x = H(s || H(P))], the identity is not mixed in. *)
Definition computeXWithoutUsername : funcX := fun fHash salt userID password =>
  SetBytes (fHash (salt ++ fHash (Bytes.of_string password))).

(** Modelled from the spec: the kernel source file is missing;
    [v = g^x mod N]. *)
Definition computeVerifier (prime generator x : Z) : Z :=
  Exp generator x prime.

(** Modelled from the spec: the kernel source file is missing;
    [A = g^a mod N]. *)
Definition computePublicClientValue (prime generator a : Z) : Z :=
  Exp generator a prime.

(** Modelled from the spec: the kernel source file is missing;
    [B = (k*v + g^b mod N) mod N]. *)
Definition computePublicServerValue (prime generator k v b : Z) : Z :=
  (k * v + Exp generator b prime) mod prime.

(** Modelled from the spec: the kernel source file is missing;
    [u = H(PAD(A) || PAD(B))] as an integer, not reduced modulo N. *)
Definition computeScramblingParameter (fHash : HashFn) (prime A B : Z) : Z :=
  let size := length (Bytes prime) in
  SetBytes (fHash (pad (Bytes A) size ++ pad (Bytes B) size)).

(** Modelled from the spec: the kernel source file is missing;
    [S = (B - k * g^x mod N)^(a + u*x) mod N], the subtraction modulo N. *)
Definition computeClientSessionKey (prime generator k x u a B : Z) : Z :=
  Exp ((B - k * Exp generator x prime) mod prime) (a + u * x) prime.

(** Modelled from the spec: the kernel source file is missing;
    [S = (A * v^u mod N)^b mod N]. *)
Definition computeServerSessionKey (prime v u A b : Z) : Z :=
  Exp ((A * Exp v u prime) mod prime) b prime.

(** Modelled from the spec: the kernel source file is missing;
    [isValidPublicValue(N, X)] is [X mod N <> 0]. The tests pass a nil
    value and expect a rejection without any storage access. *)
Definition isValidPublicValue (prime : Z) (X : option Z) : bool :=
  match X with
  | None => false
  | Some x => negb (x mod prime =? 0)
  end.

(** Modelled from the spec: the kernel source file is missing;
    [M1 = H(A || B || S)], unpadded big-endian representations. *)
Definition computeClientEvidence (fHash : HashFn) (A B S : Z) : Z :=
  SetBytes (fHash (Bytes A ++ Bytes B ++ Bytes S)).

(** Modelled from the spec: the kernel source file is missing;
    [M2 = H(A || M1 || S)]. *)
Definition computeServerEvidence (fHash : HashFn) (A M1 S : Z) : Z :=
  SetBytes (fHash (Bytes A ++ Bytes M1 ++ Bytes S)).

End Kernel.
Export Kernel.

(** ** Evaluation of the kernel on cryptographic sizes

    Arithmetic on the binary integers of [Z] is too slow for a 1024-bit
    modulus. The same square-and-multiply on machine-word big integers
    computes the same residue. *)
Module Fast.

Fixpoint powmod_big (x : bigZ) (e : positive) (m : bigZ) : bigZ :=
  match e with
  | xH => BigZ.modulo x m
  | xO e' =>
      let r := powmod_big x e' m in BigZ.modulo (BigZ.mul r r) m
  | xI e' =>
      let r := powmod_big x e' m in
      BigZ.modulo (BigZ.mul (BigZ.modulo (BigZ.mul r r) m) x) m
  end.

Definition Exp_fast (x y m : Z) : Z :=
  match y with
  | Zpos p => BigZ.to_Z (powmod_big (BigZ.of_Z x) p (BigZ.of_Z (Z.abs m)))
  | _ => 1 mod Z.abs m
  end.

End Fast.

(** ** The RFC 5054 test vector, as the kernel's test file gives it *)
Module Vector.

Definition username : string := "alice".
Definition password : string := "password123".
Definition salt : bytes := Bytes 0xBEB25379D1A8581EB5A727673A2441EE.
Definition prime : Z :=
  0xEEAF0AB9ADB38DD69C33F80AFA8FC5E86072618775FF3C0B9EA2314C9C256576D674DF7496EA81D3383B4813D692C6E0E0D5D8E250B98BE48E495C1D6089DAD15DC7D7B46154D6B6CE8EF4AD69B15D4982559B297BCF1885C529F566660E57EC68EDBC3C05726CC02FD4CBF4976EAA9AFD5138FE8376435B9FC61D2FC0EB06E3.
Definition generator : Z := 2.
Definition multiplier : Z := 0x7556AA045AEF2CDD07ABAF0F665C3E818913186F.
Definition x : Z := 0x94B7555AABE9127CC58CCF4993DB6CF84D16C124.
Definition xWithoutUsername : Z := 0xBF56D7DF933FF138C4ED956E26D2576DBBE8530B.
Definition verifier : Z :=
  0x7E273DE8696FFC4F4E337D05B4B375BEB0DDE1569E8FA00A9886D8129BADA1F1822223CA1A605B530E379BA4729FDC59F105B4787E5186F5C671085A1447B52A48CF1970B4FB6F8400BBF4CEBFBB168152E08AB5EA53D15C1AFF87B2B9DA6E04E058AD51CC72BFC9033B564E26480D78E955A5E29E7AB245DB2BE315E2099AFB.
Definition privateClientValue : Z :=
  0x60975527035CF2AD1989806F0407210BC81EDC04E2762A56AFD529DDDA2D4393.
Definition privateServerValue : Z :=
  0xE487CB59D31AC550471E81F00F6928E01DDA08E974A004F49E61F5D105284D20.
Definition publicClientValue : Z :=
  0x61D5E490F6F1B79547B0704C436F523DD0E560F0C64115BB72557EC44352E8903211C04692272D8B2D1A5358A2CF1B6E0BFCF99F921530EC8E39356179EAE45E42BA92AEACED825171E1E8B9AF6D9C03E1327F44BE087EF06530E69F66615261EEF54073CA11CF5858F0EDFDFE15EFEAB349EF5D76988A3672FAC47B0769447B.
Definition publicServerValue : Z :=
  0xBD0C61512C692C0CB6D041FA01BB152D4916A1E77AF46AE105393011BAF38964DC46A0670DD125B95A981652236F99D9B681CBF87837EC996C6DA04453728610D0C6DDB58B318885D7D82C7F8DEB75CE7BD4FBAA37089E6F9C6059F388838E7A00030B331EB76840910440B1B27AAEAEEB4012B7D7665238A8E3FB004B117B58.
Definition scramblingParameter : Z := 0xCE38B9593487DA98554ED47D70A7AE5F462EF019.
Definition premasterSecret : Z :=
  0xB0DC82BABCF30674AE450C0287745E7990A3381F63B387AAF271A10D233861E359B48220F7C4693C9AE12B0A6F67809F0876E2D013800D6C41BB59B6D5979B5C00A172B4A2A5903A0BDCAF8A709585EB2AFAFA8F3499B200210DCC1F10EB33943CD67FC88A2F39A4BE5BEC4EC0A3212DC346D7E474B29EDE8A469FFECA686E5A.
Definition clientEvidence : Z := 0xB46A783846B7E569FF8F9B44AB8D88EDEB085A65.
Definition serverEvidence : Z := 0xB0A6AD3024E79b5CAD04042ABB3A3F592D20C17.

End Vector.

(* ===================================================================== *)
(** * Go values, errors and outcomes                                      *)
(* ===================================================================== *)

(** Modelled from the spec: the [state] enumeration is declared in the
    missing kernel file; its members are [initial], [step1] and [step2]. *)
Inductive state := initial | step1 | step2.

Definition state_eqb (a b : state) : bool :=
  match a, b with
  | initial, initial | step1, step1 | step2, step2 => true
  | _, _ => false
  end.

(** [time.Time] as an instant counted in nanoseconds and [time.Duration] as a
    number of nanoseconds. *)
Definition Time := Z.
Definition Duration := Z.

(** [t.Add(d)] and [t.After(u)]. *)
Definition Add (t : Time) (d : Duration) : Time := t + d.
Definition After (t u : Time) : bool := u <? t.

(** An error made outside the library (by the storage backend or by the
    private-value generator), kept as its message. *)
Definition ext_error := string.

(** The errors the library makes, one constructor per [fmt.Errorf] or
    [errors.Wrapf] site. *)
Inductive error :=
| ErrEmptyUserID
| ErrEmptyPassword
| ErrNilSalt
| ErrNilVerifier
| ErrNilClientEvidence
| ErrNilServerEvidence
| ErrBadServerPublicValue
| ErrBadClientPublicValue
| ErrBackendGet (step : string) (cause : ext_error)
| ErrMissingField (field : string)
| ErrTypeAssertion (field : string)
| ErrStateViolation (required : string)
| ErrSessionTimeout
| ErrSrpTimeout
| ErrBadClientCredentials
| ErrBadServerCredentials
| ErrPrivateValue (cause : ext_error)
| ErrNilHash
| ErrNilGroupComponent
| ErrNilFuncX
| ErrNegativeTimeout.

(** [err.Error()]. *)
Definition error_message (e : error) : string :=
  match e with
  | ErrEmptyUserID => "the user identity must not be empty"
  | ErrEmptyPassword => "the user password must not be empty"
  | ErrNilSalt => "the salt must not be nil"
  | ErrNilVerifier => "the verifier must not be nil"
  | ErrNilClientEvidence => "the client evidence message must not be nil"
  | ErrNilServerEvidence => "the server evidence message must not be nil"
  | ErrBadServerPublicValue => "bad server public value"
  | ErrBadClientPublicValue => "bad client public value"
  | ErrBackendGet step cause =>
      "could not get SRP data from backend during " ++ step ++ ": " ++ cause
  | ErrMissingField field => "could not read '" ++ field ++ "' from backend"
  | ErrTypeAssertion field => "type assertion error for '" ++ field ++ "'"
  | ErrStateViolation required =>
      "state violation: must be in '" ++ required ++ "' state"
  | ErrSessionTimeout => "session timeout"
  | ErrSrpTimeout => "srp timeout"
  | ErrBadClientCredentials => "bad client credentials"
  | ErrBadServerCredentials => "bad server credentials"
  | ErrPrivateValue cause => cause
  | ErrNilHash => "the hash function must not be nil"
  | ErrNilGroupComponent => "the prime and generator must not be nil"
  | ErrNilFuncX => "the compute x function should not be nil"
  | ErrNegativeTimeout => "the timeout must be zero (no timeout) or greater"
  end%string.

(** A run-time panic of Go. *)
Inductive panic := NilPointerDereference.

(** What a call comes to: a value with a nil error, a non-nil error, or a
    panic that unwinds the caller. *)
Inductive Res (A : Type) :=
| Ok (a : A)
| Err (e : error)
| Panic (p : panic).
Arguments Ok {A} a.
Arguments Err {A} e.
Arguments Panic {A} p.

Definition is_error {A} (r : Res A) : bool :=
  match r with Err _ => true | _ => false end.

(** The two timeout errors: "session timeout" of the client and "srp timeout"
    of the server. *)
Definition is_timeout (e : error) : bool :=
  match e with ErrSessionTimeout | ErrSrpTimeout => true | _ => false end.

(** The dynamic values of [interface{}] that a session map can hold. *)
Inductive value :=
| VState (s : state)
| VTime (t : Time)
| VString (s : string)
| VBigInt (p : option Z)
| VBytes (b : bytes)
| VNil
| VOther (type_name : string).

(** [map[string]interface{}]; reading the nil map is reading the empty map. *)
Abbreviation session := (gmap string value).

Definition asState (v : value) : option state :=
  match v with VState s => Some s | _ => None end.
Definition asTime (v : value) : option Time :=
  match v with VTime t => Some t | _ => None end.
Definition asString (v : value) : option string :=
  match v with VString s => Some s | _ => None end.
Definition asBigInt (v : value) : option (option Z) :=
  match v with VBigInt p => Some p | _ => None end.

(** The SRP group: two [*big.Int] fields. *)
Record Group := { Prime : option Z; Generator : option Z }.

(** The 2048-bit group of RFC 5054, the default of the three constructors. *)
Definition defaultGroup : Group :=
  {| Prime := Some
       0xAC6BDB41324A9A9BF166DE5E1389582FAF72B6651987EE07FC3192943DB56050A37329CBB4A099ED8193E0757767A13DD52312AB4B03310DCD7F48A9DA04FD50E8083969EDB767B0CF6095179A163AB3661A05FBD5FAAAE82918A9962F0B93B855F97993EC975EEAA80D740ADBF4FF747359D041D5C33EA71D281E446B14773BCA97B43A23FB801676BD207A436C6481F1D2B9078717461A5B9D32E688F87748544523B524B0D57D5EA77A2775D2ECFA032CFBDBF52FB3786160279004E57AE6AF874E7303CE53299CCC041C7BC308D82A5698F3A8D0C38271AE35F8E9DBFBB694B5C803D89F7AE435DE236D525F54759B65E372FCD68EF20FA7111F9E4AFF73;
     Generator := Some 2 |}.

(** The group named rfc-1024 in the table of the kernel's test file. *)
Definition rfc1024 : Group :=
  {| Prime := Some Vector.prime; Generator := Some 2 |}.

(* ===================================================================== *)
(** * The storage backend and the world a step runs in                    *)
(* ===================================================================== *)

Module Storage.

(** The [Backend] interface over a backend state [St]: every method
    returns its results and the state it leaves. [Get] returns the map
    and the error, as in Go. *)
Record Backend (St : Type) := {
  Put : string -> session -> St -> option ext_error * St;
  Get : string -> St -> (session * option ext_error) * St;
  Delete : string -> St -> option ext_error * St
}.
Arguments Put {St} _ _ _ _.
Arguments Get {St} _ _ _.
Arguments Delete {St} _ _ _.

(** One call on the backend, with the error it returned. *)
Inductive call :=
| CallPut (key : string) (m : session) (err : option ext_error)
| CallGet (key : string) (err : option ext_error)
| CallDelete (key : string) (err : option ext_error).

Definition is_mutation (c : call) : bool :=
  match c with CallGet _ _ => false | _ => true end.

(** The [Put] and [Delete] calls of a log. *)
Definition mutations (cs : list call) : list call :=
  List.filter is_mutation cs.

Definition call_error (c : call) : option ext_error :=
  match c with
  | CallPut _ _ err | CallGet _ err | CallDelete _ err => err
  end.

(** The readings of the system random source still to come. *)
Definition Rand := list Z.

(** What is outside a step: the backend state, the wall clock as the
    sequence of its readings with the number of readings made so far, the
    random source, and the backend calls made so far. *)
Record World (St : Type) := {
  store : St;
  clock : nat -> Time;
  reads : nat;
  rng : Rand;
  calls : list call
}.
Arguments store {St} _.
Arguments clock {St} _ _.
Arguments reads {St} _.
Arguments rng {St} _.
Arguments calls {St} _.
Arguments Build_World {St} _ _ _ _ _.

(** A computation in a world. *)
Definition M (St A : Type) := World St -> Res A * World St.

(** The errors the backend returned to the calls of a run, in order. *)
Definition returned_errors {St A} (r : Res A * World St)
  : list (option ext_error) :=
  List.map call_error (calls (snd r)).

Section Monad.
Context {St : Type}.

Definition ret {A} (a : A) : M St A := fun w => (Ok a, w).

Definition bind {A B} (m : M St A) (k : A -> M St B) : M St B := fun w =>
  match m w with
  | (Ok a, w') => k a w'
  | (Err e, w') => (Err e, w')
  | (Panic p, w') => (Panic p, w')
  end.

Definition fail {A} (e : error) : M St A := fun w => (Err e, w).

Definition throw {A} (p : panic) : M St A := fun w => (Panic p, w).

(** Use of a [*big.Int]: a nil pointer panics. *)
Definition deref {A} (p : option A) : M St A :=
  match p with
  | Some a => ret a
  | None => throw NilPointerDereference
  end.

(** [time.Now()]. *)
Definition timeNow : M St Time := fun w =>
  (Ok (clock w (reads w)),
   Build_World (store w) (clock w) (S (reads w)) (rng w) (calls w)).

Definition backendPut (b : Backend St) (key : string) (m : session)
  : M St (option ext_error) := fun w =>
  let '(err, st) := Put b key m (store w) in
  (Ok err,
   Build_World st (clock w) (reads w) (rng w)
     (calls w ++ [CallPut key m err])).

Definition backendGet (b : Backend St) (key : string)
  : M St (session * option ext_error) := fun w =>
  let '(r, st) := Get b key (store w) in
  (Ok r,
   Build_World st (clock w) (reads w) (rng w)
     (calls w ++ [CallGet key (snd r)])).

Definition backendDelete (b : Backend St) (key : string)
  : M St (option ext_error) := fun w =>
  let '(err, st) := Delete b key (store w) in
  (Ok err,
   Build_World st (clock w) (reads w) (rng w)
     (calls w ++ [CallDelete key err])).

(** [x, ok = m[name]] followed by the type assertion [x.(T)]. *)
Definition field {A} (m : session) (name : string)
    (assert : value -> option A) : M St A :=
  match m !! name with
  | None => fail (ErrMissingField name)
  | Some x =>
      match assert x with
      | Some a => ret a
      | None => fail (ErrTypeAssertion name)
      end
  end.

End Monad.

(** [funcPrivateValue]: given N, a private value and an error, drawing on
    the random source. *)
Definition funcPrivateValue :=
  Z -> Rand -> (option Z * option ext_error) * Rand.

Definition callGenerator {St} (f : funcPrivateValue) (n : Z)
  : M St (option Z * option ext_error) := fun w =>
  let '(r, rng') := f n (rng w) in
  (Ok r, Build_World (store w) (clock w) (reads w) rng' (calls w)).

(** Modelled from the spec: [generatePrivateValue] is in the missing kernel
    file; a uniform integer in [1, N-1] from the system random source, the
    value 0 rejected and drawn again. The source can fail. *)
Fixpoint generatePrivateValue (n : Z) (r : Rand)
  : (option Z * option ext_error) * Rand :=
  match r with
  | [] => ((None, Some "unexpected EOF"%string), [])
  | z :: r' =>
      if z mod n =? 0 then generatePrivateValue n r'
      else ((Some (z mod n), None), r')
  end.

End Storage.
Export Storage.

Declare Scope srp_scope.
Notation "x <- m ;; k" := (bind m (fun x => k))
  (at level 100, m at next level, right associativity) : srp_scope.
Local Open Scope srp_scope.

(** ** The in-memory backend *)
Module Memory.

(** [MemoryBackend.m]. *)
Abbreviation MemoryStore := (gmap string session).

Definition MemoryPut (key : string) (val : session) (m : MemoryStore)
  : option ext_error * MemoryStore :=
  (None, <[key := val]> m).

Definition MemoryGet (key : string) (m : MemoryStore)
  : (session * option ext_error) * MemoryStore :=
  match m !! key with
  | None => ((∅, Some "key not found"%string), m)
  | Some val => ((val, None), m)
  end.

Definition MemoryDelete (key : string) (m : MemoryStore)
  : option ext_error * MemoryStore :=
  (None, delete key m).

Definition MemoryBackend : Backend MemoryStore :=
  {| Put := MemoryPut; Get := MemoryGet; Delete := MemoryDelete |}.

(** [NewMemoryBackend]: the empty store. *)
Definition NewMemoryBackend : MemoryStore := ∅.

End Memory.
Export Memory.

(* ===================================================================== *)
(** * The client                                                          *)
(* ===================================================================== *)

Module Client.
Section WithBackend.
Context {St : Type}.

(** The [Client] struct. *)
Record t := {
  backend : Backend St;
  grp : Group;
  computeX : funcX;
  fHash : HashFn;
  generatePrivateValue : funcPrivateValue;
  timeout : Duration
}.

(** [ClientOption]: the option either updates the client, returns an
    error, or panics. *)
Definition ClientOption := t -> Res t.

Definition ClientHash (h : option HashFn) : ClientOption := fun c =>
  match h with
  | None => Err ErrNilHash
  | Some h' =>
      Ok {| backend := backend c; grp := grp c; computeX := computeX c;
            fHash := h';
            generatePrivateValue := generatePrivateValue c;
            timeout := timeout c |}
  end.

(** [grp.Prime == nil || grp.Generator == nil] reads through the pointer
    [grp] before any test on it. *)
Definition ClientGroup (g : option Group) : ClientOption := fun c =>
  match g with
  | None => Panic NilPointerDereference
  | Some g' =>
      match Prime g', Generator g' with
      | Some _, Some _ =>
          Ok {| backend := backend c; grp := g'; computeX := computeX c;
                fHash := fHash c;
                generatePrivateValue := generatePrivateValue c;
                timeout := timeout c |}
      | _, _ => Err ErrNilGroupComponent
      end
  end.

Definition ClientFuncX (f : option funcX) : ClientOption := fun c =>
  match f with
  | None => Err ErrNilFuncX
  | Some f' =>
      Ok {| backend := backend c; grp := grp c; computeX := f';
            fHash := fHash c;
            generatePrivateValue := generatePrivateValue c;
            timeout := timeout c |}
  end.

Definition ClientTimeout (d : Duration) : ClientOption := fun c =>
  if d <? 0 then Err ErrNegativeTimeout
  else
    Ok {| backend := backend c; grp := grp c; computeX := computeX c;
          fHash := fHash c;
          generatePrivateValue := generatePrivateValue c;
          timeout := d |}.

Definition setGeneratePrivateValue (c : t) (f : funcPrivateValue) : t :=
  {| backend := backend c; grp := grp c; computeX := computeX c;
     fHash := fHash c; generatePrivateValue := f; timeout := timeout c |}.

Fixpoint applyOptions (c : t) (options : list ClientOption) : Res t :=
  match options with
  | [] => Ok c
  | opt :: rest =>
      match opt c with
      | Ok c' => applyOptions c' rest
      | Err e => Err e
      | Panic p => Panic p
      end
  end.

(** [NewClient]; [sha256] is the default hash of the Go constructor. *)
Definition NewClient (sha256 : HashFn) (b : Backend St)
    (options : list ClientOption) : Res t :=
  applyOptions
    {| backend := b; grp := defaultGroup;
       computeX := computeXWithoutUsername; fHash := sha256;
       generatePrivateValue := Storage.generatePrivateValue;
       timeout := 0 |}
    options.

(** The options the package exports. *)
Inductive exported : ClientOption -> Prop :=
| exported_hash h : exported (ClientHash h)
| exported_group g : exported (ClientGroup g)
| exported_funcX f : exported (ClientFuncX f)
| exported_timeout d : exported (ClientTimeout d).

(** What the constructor establishes: both group components are set and the
    timeout is not negative. *)
Definition configured (c : t) : Prop :=
  (exists N g, Prime (grp c) = Some N /\ Generator (grp c) = Some g)
  /\ 0 <= timeout c.

Definition hasTimedOut (c : t) (lastActivity : Time) : M St bool :=
  if timeout c =? 0 then ret false
  else
    now <- timeNow ;;
    ret (After now (Add lastActivity (timeout c))).

Definition Step1 (c : t) (userID password : string) : M St unit :=
  if String.eqb userID "" then fail ErrEmptyUserID
  else if String.eqb password "" then fail ErrEmptyPassword
  else
    now <- timeNow ;;
    _ <- backendPut (backend c) userID
           {[ "state"%string := VState step1;
              "lastActivity"%string := VTime now;
              "password"%string := VString password ]} ;;
    ret tt.

Definition Step2 (c : t) (userID : string) (salt : option bytes)
    (publicServerValue : option Z) : M St (Z * Z) :=
  if String.eqb userID "" then fail ErrEmptyUserID
  else match salt with
  | None => fail ErrNilSalt
  | Some salt =>
    N <- deref (Prime (grp c)) ;;
    if negb (isValidPublicValue N publicServerValue)
    then fail ErrBadServerPublicValue
    else
      r <- backendGet (backend c) userID ;;
      match snd r with
      | Some err => fail (ErrBackendGet "step2" err)
      | None =>
        let m := fst r in
        step <- field m "state" asState ;;
        lastActivity <- field m "lastActivity" asTime ;;
        password <- field m "password" asString ;;
        if negb (state_eqb step step1)
        then fail (ErrStateViolation "step1")
        else
          timedOut <- hasTimedOut c lastActivity ;;
          if (timedOut : bool) then fail ErrSessionTimeout
          else
            let x := computeX c (fHash c) salt userID password in
            pv <- callGenerator (generatePrivateValue c) N ;;
            match snd pv with
            | Some err => fail (ErrPrivateValue err)
            | None =>
              g <- deref (Generator (grp c)) ;;
              privateClientValue <- deref (fst pv) ;;
              let publicClientValue :=
                computePublicClientValue N g privateClientValue in
              let multiplier := computeMultiplier (fHash c) N g in
              B <- deref publicServerValue ;;
              let scramblingParam :=
                computeScramblingParameter (fHash c) N publicClientValue B in
              let sessionKey :=
                computeClientSessionKey N g multiplier x scramblingParam
                  privateClientValue B in
              let clientEvidence :=
                computeClientEvidence (fHash c) publicClientValue B
                  sessionKey in
              now <- timeNow ;;
              _ <- backendPut (backend c) userID
                     {[ "state"%string := VState step2;
                        "lastActivity"%string := VTime now;
                        "publicClientValue"%string :=
                          VBigInt (Some publicClientValue);
                        "clientEvidence"%string :=
                          VBigInt (Some clientEvidence);
                        "sessionKey"%string := VBigInt (Some sessionKey) ]} ;;
              ret (publicClientValue, clientEvidence)
            end
      end
  end.

Definition Step3 (c : t) (userID : string) (serverEvidence : option Z)
  : M St unit :=
  if String.eqb userID "" then fail ErrEmptyUserID
  else match serverEvidence with
  | None => fail ErrNilServerEvidence
  | Some serverEvidence =>
    r <- backendGet (backend c) userID ;;
    match snd r with
    | Some err => fail (ErrBackendGet "step3" err)
    | None =>
      let m := fst r in
      step <- field m "state" asState ;;
      lastActivity <- field m "lastActivity" asTime ;;
      publicClientValue <- field m "publicClientValue" asBigInt ;;
      clientEvidence <- field m "clientEvidence" asBigInt ;;
      sessionKey <- field m "sessionKey" asBigInt ;;
      if negb (state_eqb step step2)
      then fail (ErrStateViolation "step2")
      else
        timedOut <- hasTimedOut c lastActivity ;;
        if (timedOut : bool) then fail ErrSessionTimeout
        else
          A <- deref publicClientValue ;;
          M1 <- deref clientEvidence ;;
          S <- deref sessionKey ;;
          let computedM2 := computeServerEvidence (fHash c) A M1 S in
          if negb (computedM2 =? serverEvidence)
          then fail ErrBadServerCredentials
          else
            _ <- backendDelete (backend c) userID ;;
            ret tt
    end
  end.

End WithBackend.
Arguments t St : clear implicits.
End Client.

(* ===================================================================== *)
(** * The server                                                          *)
(* ===================================================================== *)

Module Server.
Section WithBackend.
Context {St : Type}.

(** The [Server] struct. *)
Record t := {
  backend : Backend St;
  grp : Group;
  computeX : funcX;
  fHash : HashFn;
  generatePrivateValue : funcPrivateValue;
  timeout : Duration
}.

Definition ServerOption := t -> Res t.

Definition ServerHash (h : option HashFn) : ServerOption := fun s =>
  match h with
  | None => Err ErrNilHash
  | Some h' =>
      Ok {| backend := backend s; grp := grp s; computeX := computeX s;
            fHash := h';
            generatePrivateValue := generatePrivateValue s;
            timeout := timeout s |}
  end.

Definition ServerGroup (g : option Group) : ServerOption := fun s =>
  match g with
  | None => Panic NilPointerDereference
  | Some g' =>
      match Prime g', Generator g' with
      | Some _, Some _ =>
          Ok {| backend := backend s; grp := g'; computeX := computeX s;
                fHash := fHash s;
                generatePrivateValue := generatePrivateValue s;
                timeout := timeout s |}
      | _, _ => Err ErrNilGroupComponent
      end
  end.

Definition ServerFuncX (f : option funcX) : ServerOption := fun s =>
  match f with
  | None => Err ErrNilFuncX
  | Some f' =>
      Ok {| backend := backend s; grp := grp s; computeX := f';
            fHash := fHash s;
            generatePrivateValue := generatePrivateValue s;
            timeout := timeout s |}
  end.

Definition ServerTimeout (d : Duration) : ServerOption := fun s =>
  if d <? 0 then Err ErrNegativeTimeout
  else
    Ok {| backend := backend s; grp := grp s; computeX := computeX s;
          fHash := fHash s;
          generatePrivateValue := generatePrivateValue s;
          timeout := d |}.

Definition setGeneratePrivateValue (s : t) (f : funcPrivateValue) : t :=
  {| backend := backend s; grp := grp s; computeX := computeX s;
     fHash := fHash s; generatePrivateValue := f; timeout := timeout s |}.

Fixpoint applyOptions (s : t) (options : list ServerOption) : Res t :=
  match options with
  | [] => Ok s
  | opt :: rest =>
      match opt s with
      | Ok s' => applyOptions s' rest
      | Err e => Err e
      | Panic p => Panic p
      end
  end.

(** [NewServer]; [sha256] is the default hash of the Go constructor. *)
Definition NewServer (sha256 : HashFn) (b : Backend St)
    (options : list ServerOption) : Res t :=
  applyOptions
    {| backend := b; grp := defaultGroup;
       computeX := computeXWithoutUsername; fHash := sha256;
       generatePrivateValue := Storage.generatePrivateValue;
       timeout := 0 |}
    options.

(** The options the package exports. *)
Inductive exported : ServerOption -> Prop :=
| exported_hash h : exported (ServerHash h)
| exported_group g : exported (ServerGroup g)
| exported_funcX f : exported (ServerFuncX f)
| exported_timeout d : exported (ServerTimeout d).

(** What the constructor establishes: both group components are set and the
    timeout is not negative. *)
Definition configured (s : t) : Prop :=
  (exists N g, Prime (grp s) = Some N /\ Generator (grp s) = Some g)
  /\ 0 <= timeout s.

Definition hasTimedOut (s : t) (lastActivity : Time) : M St bool :=
  if timeout s =? 0 then ret false
  else
    now <- timeNow ;;
    ret (After now (Add lastActivity (timeout s))).

Definition Step1 (s : t) (userID : string) (salt : option bytes)
    (verifier : option Z) : M St Z :=
  if String.eqb userID "" then fail ErrEmptyUserID
  else match salt with
  | None => fail ErrNilSalt
  | Some _ =>
    match verifier with
    | None => fail ErrNilVerifier
    | Some v =>
      N <- deref (Prime (grp s)) ;;
      g <- deref (Generator (grp s)) ;;
      let multiplier := computeMultiplier (fHash s) N g in
      pv <- callGenerator (generatePrivateValue s) N ;;
      match snd pv with
      | Some err => fail (ErrPrivateValue err)
      | None =>
        privateServerValue <- deref (fst pv) ;;
        let publicServerValue :=
          computePublicServerValue N g multiplier v privateServerValue in
        lastActivity <- timeNow ;;
        _ <- backendPut (backend s) userID
               {[ "state"%string := VState step1;
                  "lastActivity"%string := VTime lastActivity;
                  "publicServerValue"%string :=
                    VBigInt (Some publicServerValue);
                  "privateServerValue"%string :=
                    VBigInt (Some privateServerValue) ]} ;;
        ret publicServerValue
      end
    end
  end.

Definition Step2 (s : t) (userID : string) (salt : option bytes)
    (verifier publicClientValue clientEvidence : option Z) : M St Z :=
  if String.eqb userID "" then fail ErrEmptyUserID
  else match salt with
  | None => fail ErrNilSalt
  | Some _ =>
    match verifier with
    | None => fail ErrNilVerifier
    | Some v =>
      match clientEvidence with
      | None => fail ErrNilClientEvidence
      | Some M1 =>
        N <- deref (Prime (grp s)) ;;
        if negb (isValidPublicValue N publicClientValue)
        then fail ErrBadClientPublicValue
        else
          r <- backendGet (backend s) userID ;;
          match snd r with
          | Some err => fail (ErrBackendGet "step2" err)
          | None =>
            let m := fst r in
            step <- field m "state" asState ;;
            lastActivity <- field m "lastActivity" asTime ;;
            publicServerValue <- field m "publicServerValue" asBigInt ;;
            privateServerValue <- field m "privateServerValue" asBigInt ;;
            if negb (state_eqb step step1)
            then fail (ErrStateViolation "step1")
            else
              timedOut <- hasTimedOut s lastActivity ;;
              if (timedOut : bool) then fail ErrSrpTimeout
              else
                A <- deref publicClientValue ;;
                B <- deref publicServerValue ;;
                let scramblingParam :=
                  computeScramblingParameter (fHash s) N A B in
                b <- deref privateServerValue ;;
                let sessionKey :=
                  computeServerSessionKey N v scramblingParam A b in
                let computedM1 :=
                  computeClientEvidence (fHash s) A B sessionKey in
                if negb (computedM1 =? M1)
                then fail ErrBadClientCredentials
                else
                  let serverEvidence :=
                    computeServerEvidence (fHash s) A M1 sessionKey in
                  _ <- backendDelete (backend s) userID ;;
                  ret serverEvidence
          end
      end
    end
  end.

End WithBackend.
Arguments t St : clear implicits.
End Server.

(* ===================================================================== *)
(** * The verifier generator                                              *)
(* ===================================================================== *)

Module Verifier.

(** The [Verifier] struct. *)
Record t := {
  grp : Group;
  fHash : HashFn;
  computeX : funcX
}.

Definition VerifierOption := t -> Res t.

Definition VerifierHash (h : option HashFn) : VerifierOption := fun v =>
  match h with
  | None => Err ErrNilHash
  | Some h' => Ok {| grp := grp v; fHash := h'; computeX := computeX v |}
  end.

Definition VerifierGroup (g : option Group) : VerifierOption := fun v =>
  match g with
  | None => Panic NilPointerDereference
  | Some g' =>
      match Prime g', Generator g' with
      | Some _, Some _ =>
          Ok {| grp := g'; fHash := fHash v; computeX := computeX v |}
      | _, _ => Err ErrNilGroupComponent
      end
  end.

Definition VerifierFuncX (f : option funcX) : VerifierOption := fun v =>
  match f with
  | None => Err ErrNilFuncX
  | Some f' => Ok {| grp := grp v; fHash := fHash v; computeX := f' |}
  end.

Fixpoint applyOptions (v : t) (options : list VerifierOption) : Res t :=
  match options with
  | [] => Ok v
  | opt :: rest =>
      match opt v with
      | Ok v' => applyOptions v' rest
      | Err e => Err e
      | Panic p => Panic p
      end
  end.

(** [NewVerifier]; [sha256] is the default hash of the Go constructor. *)
Definition NewVerifier (sha256 : HashFn) (options : list VerifierOption)
  : Res t :=
  applyOptions
    {| grp := defaultGroup; fHash := sha256;
       computeX := computeXWithoutUsername |}
    options.

(** [GenerateVerifier]: a nil group component panics in the kernel. *)
Definition GenerateVerifier (v : t) (salt : bytes) (username password : string)
  : Res Z :=
  let x := computeX v (fHash v) salt username password in
  match Prime (grp v), Generator (grp v) with
  | Some N, Some g => Ok (computeVerifier N g x)
  | _, _ => Panic NilPointerDereference
  end.

End Verifier.

(* ===================================================================== *)
(** * A small scenario to run the steps on                                *)
(* ===================================================================== *)

Module Scenario.

Definition userID : string := "alice".
Definition password : string := "password123".
Definition salt : bytes := Vector.salt.

(** A group small enough to be run at every step: N = 23, g = 5. *)
Definition N : Z := 23.
Definition g : Z := 5.
Definition grp : Group := {| Prime := Some N; Generator := Some g |}.

(** The private values, fixed as the tests fix them with
    [setGeneratePrivateValue]. *)
Definition a : Z := 6.
Definition b : Z := 15.
Definition fixedPrivateValue (v : Z) : funcPrivateValue :=
  fun _ r => ((Some v, None), r).

(** A [hash.Hash] whose digest is twenty zero bytes. *)
Definition zeroHash : HashFn := fun _ => repeat x00 20.

(** A backend that reads as the in-memory one and whose [Put] and [Delete]
    return an error and store nothing. *)
Definition failingBackend : Backend MemoryStore :=
  {| Put := fun _ _ m => (Some "backend unavailable"%string, m);
     Get := MemoryGet;
     Delete := fun _ m => (Some "backend unavailable"%string, m) |}.

Section WithHash.
Variable H : HashFn.

Definition x : Z := computeXWithUsername H salt userID password.
Definition v : Z := computeVerifier N g x.
Definition k : Z := computeMultiplier H N g.
Definition A : Z := computePublicClientValue N g a.
Definition B : Z := computePublicServerValue N g k v b.
Definition u : Z := computeScramblingParameter H N A B.
Definition S : Z := computeServerSessionKey N v u A b.
Definition M1 : Z := computeClientEvidence H A B S.
Definition M2 : Z := computeServerEvidence H A M1 S.

(** The session maps as the steps write them. *)
Definition clientSession1 (t : Time) : session :=
  {[ "state"%string := VState step1;
     "lastActivity"%string := VTime t;
     "password"%string := VString password ]}.

Definition clientSession2 (t : Time) : session :=
  {[ "state"%string := VState step2;
     "lastActivity"%string := VTime t;
     "publicClientValue"%string := VBigInt (Some A);
     "clientEvidence"%string := VBigInt (Some M1);
     "sessionKey"%string := VBigInt (Some S) ]}.

Definition serverSession1 (t : Time) : session :=
  {[ "state"%string := VState step1;
     "lastActivity"%string := VTime t;
     "publicServerValue"%string := VBigInt (Some B);
     "privateServerValue"%string := VBigInt (Some b) ]}.

Definition client (bk : Backend MemoryStore) (t : Duration)
  : Client.t MemoryStore :=
  {| Client.backend := bk; Client.grp := grp;
     Client.computeX := computeXWithUsername; Client.fHash := H;
     Client.generatePrivateValue := fixedPrivateValue a;
     Client.timeout := t |}.

Definition server (bk : Backend MemoryStore) (t : Duration)
  : Server.t MemoryStore :=
  {| Server.backend := bk; Server.grp := grp;
     Server.computeX := computeXWithUsername; Server.fHash := H;
     Server.generatePrivateValue := fixedPrivateValue b;
     Server.timeout := t |}.

End WithHash.

(** A world whose clock reads [now] at every reading. *)
Definition world (st : MemoryStore) (now : Time) : World MemoryStore :=
  {| store := st; clock := fun _ => now; reads := 0; rng := []; calls := [] |}.

End Scenario.

(* ===================================================================== *)
(** * The records the steps write, and what a step can be asked            *)
(* ===================================================================== *)

Module Records.

(** The map Client.Step1 puts. *)
Definition clientStep1 (t : Time) (password : string) : session :=
  {[ "state"%string := VState step1;
     "lastActivity"%string := VTime t;
     "password"%string := VString password ]}.

(** The map Client.Step2 puts. *)
Definition clientStep2 (t : Time) (A M1 S : Z) : session :=
  {[ "state"%string := VState step2;
     "lastActivity"%string := VTime t;
     "publicClientValue"%string := VBigInt (Some A);
     "clientEvidence"%string := VBigInt (Some M1);
     "sessionKey"%string := VBigInt (Some S) ]}.

(** The map Server.Step1 puts. *)
Definition serverStep1 (t : Time) (B b : Z) : session :=
  {[ "state"%string := VState step1;
     "lastActivity"%string := VTime t;
     "publicServerValue"%string := VBigInt (Some B);
     "privateServerValue"%string := VBigInt (Some b) ]}.

End Records.

(** The errors for a stored record that lacks a field or holds it with
    another type. *)
Definition is_deserialization (e : error) : bool :=
  match e with ErrMissingField _ | ErrTypeAssertion _ => true | _ => false end.

(** No two readings of the clock are further apart than the timeout, or the
    timeout is off. *)
Definition within {St} (t : Duration) (w : World St) : Prop :=
  t = 0 \/ forall i j, clock w j <= clock w i + t.

(** The option values the option functions accept. *)
Inductive client_option_ok {St} : @Client.ClientOption St -> Prop :=
| client_hash_ok h : client_option_ok (Client.ClientHash (Some h))
| client_group_ok N g :
    client_option_ok
      (Client.ClientGroup (Some {| Prime := Some N; Generator := Some g |}))
| client_funcX_ok f : client_option_ok (Client.ClientFuncX (Some f))
| client_timeout_ok d : 0 <= d -> client_option_ok (Client.ClientTimeout d).

Inductive server_option_ok {St} : @Server.ServerOption St -> Prop :=
| server_hash_ok h : server_option_ok (Server.ServerHash (Some h))
| server_group_ok N g :
    server_option_ok
      (Server.ServerGroup (Some {| Prime := Some N; Generator := Some g |}))
| server_funcX_ok f : server_option_ok (Server.ServerFuncX (Some f))
| server_timeout_ok d : 0 <= d -> server_option_ok (Server.ServerTimeout d).

Inductive verifier_option : Verifier.VerifierOption -> Prop :=
| verifier_hash h : verifier_option (Verifier.VerifierHash h)
| verifier_group g : verifier_option (Verifier.VerifierGroup g)
| verifier_funcX f : verifier_option (Verifier.VerifierFuncX f).

Inductive verifier_option_ok : Verifier.VerifierOption -> Prop :=
| verifier_hash_ok h : verifier_option_ok (Verifier.VerifierHash (Some h))
| verifier_group_ok N g :
    verifier_option_ok
      (Verifier.VerifierGroup (Some {| Prime := Some N; Generator := Some g |}))
| verifier_funcX_ok f : verifier_option_ok (Verifier.VerifierFuncX (Some f)).

Example sha1_abc :
  SetBytes (SHA1.sum (Bytes.of_string "abc"))
  = 0xA9993E364706816ABA3E25717850C26C9CD0D89D.
Proof. vm_compute. reflexivity. Qed.

Example sha1_empty :
  SetBytes (SHA1.sum []) = 0xDA39A3EE5E6B4B0D3255BFEF95601890AFD80709.
Proof. vm_compute. reflexivity. Qed.

Example sha1_two_blocks :
  SetBytes (SHA1.sum (Bytes.of_string
     "abcdbcdecdefdefgefghfghighijhijkijkljklmklmnlmnomnopnopq"))
  = 0x84983E441C3BD26EBAAE4AA1F95129E5E54670F1.
Proof. vm_compute. reflexivity. Qed.

(** The second scenario of the kernel's tests: x without the user name. *)
Example x_without_username :
  computeXWithoutUsername SHA1.sum Vector.salt Vector.username Vector.password
  = Vector.xWithoutUsername.
Proof. vm_compute. reflexivity. Qed.

(** The byte forms are inverse to each other on the values of the vector. *)
Example bytes_of_prime :
  length (Bytes Vector.prime) = 128%nat
  /\ SetBytes (Bytes Vector.prime) = Vector.prime
  /\ pad (Bytes 2) 4 = [x00; x00; x00; x02].
Proof. vm_compute. repeat apply conj; reflexivity. Qed.

(** A whole exchange on the in-memory backend, client and server each with
    its own store: every step succeeds and both sessions are deleted. *)
Example full_exchange :
  let H := SHA1.sum in
  let c := Scenario.client H MemoryBackend 0 in
  let s := Scenario.server H MemoryBackend 0 in
  let v := Scenario.v H in
  let c1 := Client.Step1 c Scenario.userID Scenario.password
              (Scenario.world ∅ 1000) in
  let s1 := Server.Step1 s Scenario.userID (Some Scenario.salt) (Some v)
              (Scenario.world ∅ 1000) in
  match fst s1 with
  | Ok B =>
      let c2 := Client.Step2 c Scenario.userID (Some Scenario.salt) (Some B)
                  (snd c1) in
      match fst c2 with
      | Ok (A, M1) =>
          let s2 := Server.Step2 s Scenario.userID (Some Scenario.salt)
                      (Some v) (Some A) (Some M1) (snd s1) in
          match fst s2 with
          | Ok M2 =>
              let c3 := Client.Step3 c Scenario.userID (Some M2) (snd c2) in
              fst c1 = Ok tt /\ fst c3 = Ok tt
              /\ store (snd c3) = ∅ /\ store (snd s2) = ∅
          | _ => False
          end
      | _ => False
      end
  | _ => False
  end.
Proof. vm_compute. repeat apply conj; reflexivity. Qed.

(** A wrong password on the client side is caught by the server. *)
Example wrong_password_is_rejected :
  let H := SHA1.sum in
  let c := Scenario.client H MemoryBackend 0 in
  let s := Scenario.server H MemoryBackend 0 in
  let c1 := Client.Step1 c Scenario.userID "password124"
              (Scenario.world ∅ 1000) in
  let c2 := Client.Step2 c Scenario.userID (Some Scenario.salt)
              (Some (Scenario.B H)) (snd c1) in
  match fst c2 with
  | Ok (A, M1) =>
      fst (Server.Step2 s Scenario.userID (Some Scenario.salt)
             (Some (Scenario.v H)) (Some A) (Some M1)
             (Scenario.world
                {[ Scenario.userID := Scenario.serverSession1 H 1000 ]} 1000))
      = Err ErrBadClientCredentials
  | _ => False
  end.
Proof. vm_compute. reflexivity. Qed.

(** ** Square-and-multiply computes the residue of the power *)

Lemma powmod_pos_spec x e m : powmod_pos x e m = x ^ Zpos e mod m.
Proof.
  induction e as [e IH | e IH |]; simpl powmod_pos.
  - rewrite IH, Pos2Z.inj_xI.
    replace (2 * Z.pos e + 1) with (Z.pos e + Z.pos e + 1) by lia.
    rewrite !Z.pow_add_r, Z.pow_1_r by lia.
    rewrite <- Zmult_mod, Zmult_mod_idemp_l. reflexivity.
  - rewrite IH, Pos2Z.inj_xO.
    replace (2 * Z.pos e) with (Z.pos e + Z.pos e) by lia.
    rewrite Z.pow_add_r by lia.
    rewrite <- Zmult_mod. reflexivity.
  - rewrite Z.pow_1_r. reflexivity.
Qed.

(** [Exp] is the power modulo a positive modulus, for every exponent that is
    not negative. *)
Lemma Exp_spec x y m : 0 <= y -> 0 < m -> Exp x y m = x ^ y mod m.
Proof.
  intros Hy Hm. unfold Exp. rewrite (Z.abs_eq m) by lia.
  destruct y as [| p | p]; [reflexivity | apply powmod_pos_spec | lia].
Qed.

(** The kernel computes the formulas of the specification, written with the
    power of [Z]. *)
Lemma kernel_formulas N g k x u a b v A B :
  0 < N -> 0 <= x -> 0 <= u -> 0 <= a -> 0 <= b ->
  computeVerifier N g x = g ^ x mod N
  /\ computePublicClientValue N g a = g ^ a mod N
  /\ computePublicServerValue N g k v b = (k * v + g ^ b mod N) mod N
  /\ computeClientSessionKey N g k x u a B
     = ((B - k * (g ^ x mod N)) mod N) ^ (a + u * x) mod N
  /\ computeServerSessionKey N v u A b = ((A * (v ^ u mod N)) mod N) ^ b mod N.
Proof.
  intros HN Hx Hu Ha Hb.
  assert (Hux : 0 <= a + u * x) by nia.
  unfold computeVerifier, computePublicClientValue, computePublicServerValue,
    computeClientSessionKey, computeServerSessionKey.
  rewrite !Exp_spec by assumption.
  repeat apply conj; reflexivity.
Qed.

Lemma powmod_big_spec x e m :
  BigZ.to_Z (Fast.powmod_big x e m)
  = powmod_pos (BigZ.to_Z x) e (BigZ.to_Z m).
Proof.
  induction e as [e IH | e IH |]; simpl.
  - rewrite BigZ.spec_modulo, BigZ.spec_mul, BigZ.spec_modulo, BigZ.spec_mul, IH.
    reflexivity.
  - rewrite BigZ.spec_modulo, BigZ.spec_mul, IH. reflexivity.
  - apply BigZ.spec_modulo.
Qed.

Lemma Exp_fast_spec x y m : Exp x y m = Fast.Exp_fast x y m.
Proof.
  unfold Exp, Fast.Exp_fast. destruct y as [| p | p]; try reflexivity.
  rewrite powmod_big_spec, !BigZ.spec_of_Z. reflexivity.
Qed.

Lemma computeVerifier_fast N g x :
  computeVerifier N g x = Fast.Exp_fast g x N.
Proof. apply Exp_fast_spec. Qed.

Lemma computePublicClientValue_fast N g a :
  computePublicClientValue N g a = Fast.Exp_fast g a N.
Proof. apply Exp_fast_spec. Qed.

Lemma computePublicServerValue_fast N g k v b :
  computePublicServerValue N g k v b = (k * v + Fast.Exp_fast g b N) mod N.
Proof. unfold computePublicServerValue. now rewrite Exp_fast_spec. Qed.

Lemma computeClientSessionKey_fast N g k x u a B :
  computeClientSessionKey N g k x u a B
  = Fast.Exp_fast ((B - k * Fast.Exp_fast g x N) mod N) (a + u * x) N.
Proof.
  unfold computeClientSessionKey.
  rewrite (Exp_fast_spec g x N). apply Exp_fast_spec.
Qed.

Lemma computeServerSessionKey_fast N v u A b :
  computeServerSessionKey N v u A b
  = Fast.Exp_fast ((A * Fast.Exp_fast v u N) mod N) b N.
Proof.
  unfold computeServerSessionKey.
  rewrite (Exp_fast_spec v u N). apply Exp_fast_spec.
Qed.

(** C1. With the rfc-1024 group, SHA-1 and the X variant with the user name,
    the kernel reproduces the RFC 5054 vector: for the salt, the identity
    "alice", the password "password123" and the private values a and b of
    the vector, it returns the k, x, v, A, B, u, S (from the client and from
    the server side), M1 and M2 of the vector. *)
Theorem C1_rfc5054_vector :
     computeMultiplier SHA1.sum Vector.prime Vector.generator = Vector.multiplier
  /\ computeXWithUsername SHA1.sum Vector.salt Vector.username Vector.password = Vector.x
  /\ computeVerifier Vector.prime Vector.generator Vector.x = Vector.verifier
  /\ computePublicClientValue Vector.prime Vector.generator Vector.privateClientValue
     = Vector.publicClientValue
  /\ computePublicServerValue Vector.prime Vector.generator Vector.multiplier
       Vector.verifier Vector.privateServerValue = Vector.publicServerValue
  /\ computeScramblingParameter SHA1.sum Vector.prime Vector.publicClientValue
       Vector.publicServerValue = Vector.scramblingParameter
  /\ computeClientSessionKey Vector.prime Vector.generator Vector.multiplier Vector.x
       Vector.scramblingParameter Vector.privateClientValue Vector.publicServerValue
     = Vector.premasterSecret
  /\ computeServerSessionKey Vector.prime Vector.verifier Vector.scramblingParameter
       Vector.publicClientValue Vector.privateServerValue = Vector.premasterSecret
  /\ computeClientEvidence SHA1.sum Vector.publicClientValue Vector.publicServerValue
       Vector.premasterSecret = Vector.clientEvidence
  /\ computeServerEvidence SHA1.sum Vector.publicClientValue Vector.clientEvidence
       Vector.premasterSecret = Vector.serverEvidence.
Proof.
  repeat apply conj.
  - vm_compute; reflexivity.
  - vm_compute; reflexivity.
  - rewrite computeVerifier_fast; vm_compute; reflexivity.
  - rewrite computePublicClientValue_fast; vm_compute; reflexivity.
  - rewrite computePublicServerValue_fast; vm_compute; reflexivity.
  - vm_compute; reflexivity.
  - rewrite computeClientSessionKey_fast; vm_compute; reflexivity.
  - rewrite computeServerSessionKey_fast; vm_compute; reflexivity.
  - vm_compute; reflexivity.
  - vm_compute; reflexivity.
Qed.

(** ** The algebra of the session key *)

Lemma Z_of_byte_nonneg b : 0 <= Z_of_byte b.
Proof. unfold Z_of_byte. lia. Qed.

Lemma SetBytes_nonneg bs : 0 <= SetBytes bs.
Proof.
  unfold SetBytes.
  assert (H : forall acc, 0 <= acc ->
            0 <= fold_left (fun acc b => acc * 256 + Z_of_byte b) bs acc).
  { induction bs as [| b bs IH]; intros acc Hacc; simpl; [exact Hacc |].
    apply IH. pose proof (Z_of_byte_nonneg b). lia. }
  apply H. lia.
Qed.

Lemma computeX_nonneg (f : funcX) fHash s I P :
  f = computeXWithUsername \/ f = computeXWithoutUsername ->
  0 <= f fHash s I P.
Proof. intros [-> | ->]; apply SetBytes_nonneg. Qed.

Lemma pow_mod_pow g x u N :
  0 < N -> 0 <= x -> 0 <= u -> (g ^ x mod N) ^ u mod N = g ^ (x * u) mod N.
Proof.
  intros HN Hx Hu.
  rewrite <- Zpower_mod by exact HN.
  rewrite Z.pow_mul_r by assumption. reflexivity.
Qed.

(** The base of the client is the residue of [g^b]: the term [k*v] the server
    added is taken off again. *)
Lemma client_base N g k v b :
  ((k * v + g ^ b mod N) mod N - k * v) mod N = g ^ b mod N.
Proof.
  rewrite Zminus_mod, Zmod_mod, <- Zminus_mod.
  replace (k * v + g ^ b mod N - k * v) with (g ^ b mod N) by lia.
  apply Zmod_mod.
Qed.

Lemma session_key_algebra N g k x u a b :
  0 < N -> 0 <= x -> 0 <= u -> 0 <= a -> 0 <= b ->
  computeClientSessionKey N g k x u a
    (computePublicServerValue N g k (computeVerifier N g x) b)
  = computeServerSessionKey N (computeVerifier N g x) u
      (computePublicClientValue N g a) b.
Proof.
  intros HN Hx Hu Ha Hb.
  unfold computeClientSessionKey, computeServerSessionKey,
    computePublicServerValue, computePublicClientValue, computeVerifier.
  assert (Hux : 0 <= a + u * x) by nia.
  rewrite !Exp_spec by assumption.
  rewrite client_base.
  rewrite pow_mod_pow by assumption.
  rewrite (pow_mod_pow g x u) by assumption.
  rewrite <- Zmult_mod, <- Z.pow_add_r by nia.
  rewrite pow_mod_pow by (try assumption; nia).
  f_equal. f_equal. ring.
Qed.

(** C2. For every group modulus N > 0 and generator g, every hash, salt,
    identity and password, and private values a and b in [1, N-1]: with x
    computed by either X variant, v = g^x mod N, and A, B, k, u computed by
    the kernel, the client session key equals the server session key. *)
Theorem C2_session_keys_agree
    (fHash : HashFn) (computeX : funcX) (N g : Z) (s : bytes) (I P : string)
    (a b : Z) :
  computeX = computeXWithUsername \/ computeX = computeXWithoutUsername ->
  0 < N -> 1 <= a <= N - 1 -> 1 <= b <= N - 1 ->
  let x := computeX fHash s I P in
  let v := computeVerifier N g x in
  let k := computeMultiplier fHash N g in
  let A := computePublicClientValue N g a in
  let B := computePublicServerValue N g k v b in
  let u := computeScramblingParameter fHash N A B in
  computeClientSessionKey N g k x u a B = computeServerSessionKey N v u A b.
Proof.
  intros HX HN Ha Hb x v k A B u.
  apply session_key_algebra; try lia.
  - apply computeX_nonneg, HX.
  - apply SetBytes_nonneg.
Qed.

Lemma C2_session_keys_agree_witness :
  0 < 23 /\ 1 <= 6 <= 23 - 1 /\ 1 <= 15 <= 23 - 1 /\
  let x := computeXWithUsername SHA1.sum [] "alice" "password123" in
  let v := computeVerifier 23 5 x in
  let k := computeMultiplier SHA1.sum 23 5 in
  let A := computePublicClientValue 23 5 6 in
  let B := computePublicServerValue 23 5 k v 15 in
  let u := computeScramblingParameter SHA1.sum 23 A B in
  computeClientSessionKey 23 5 k x u 6 B = computeServerSessionKey 23 v u A 15.
Proof.
  split; [lia |]. split; [lia |]. split; [lia |].
  apply (C2_session_keys_agree SHA1.sum computeXWithUsername 23 5 []
           "alice" "password123" 6 15); [left; reflexivity | lia | lia | lia].
Defined.

(* ===================================================================== *)
(** * The protocol steps                                                  *)
(* ===================================================================== *)

Lemma mutations_app cs cs' : mutations (cs ++ cs') = mutations cs ++ mutations cs'.
Proof. apply List.filter_app. Qed.

Lemma mutations_get cs key err : mutations (cs ++ [CallGet key err]) = mutations cs.
Proof. rewrite mutations_app. simpl. apply app_nil_r. Qed.

(** Unfolds the operations of the world monad. *)
Ltac run_monad :=
  unfold deref, field in *;
  unfold bind, fail, ret, throw, timeNow, backendGet, backendPut,
    backendDelete, callGenerator in *.

Ltac simpl_world :=
  cbn beta iota zeta delta [fst snd calls store reads clock rng] in *.

(** Splits on the innermost scrutinee of a term. *)
Ltac split_inner x :=
  lazymatch x with
  | context [match ?y with _ => _ end] => split_inner y
  | _ => destruct x eqn:?
  end.

(** Splits on the next test of the step in the goal. *)
Ltac next_case :=
  match goal with
  | |- context [match ?x with _ => _ end] => split_inner x
  end; simpl_world.

Ltac step_cases := run_monad; simpl_world; repeat next_case.

(** Closes the timeout case of a step: the error came from [hasTimedOut]
    returning true on the stored [lastActivity]. *)
Ltac timeout_source :=
  split; [lia |];
  match goal with
  | H : asTime ?v = Some ?t |- _ =>
      destruct v; try discriminate; inversion H; subst
  end;
  eexists; split; [reflexivity |];
  repeat match goal with
         | H : (_, _) = (_, _) |- _ => inversion H; subst; clear H
         end;
  assumption.

Section StepFacts.
Context {St : Type}.
Implicit Types (w : World St) (c : Client.t St) (s : Server.t St).

(** *** A step that returns an error has made no [Put] and no [Delete] *)

Lemma Client_Step2_error_no_mutation c userID salt B w e :
  fst (Client.Step2 c userID salt B w) = Err e ->
  mutations (calls (snd (Client.Step2 c userID salt B w))) = mutations (calls w).
Proof.
  unfold Client.Step2, Client.hasTimedOut. step_cases;
    intros; try discriminate; rewrite ?mutations_get; reflexivity.
Qed.

Lemma Client_Step3_error_no_mutation c userID M2 w e :
  fst (Client.Step3 c userID M2 w) = Err e ->
  mutations (calls (snd (Client.Step3 c userID M2 w))) = mutations (calls w).
Proof.
  unfold Client.Step3, Client.hasTimedOut. step_cases;
    intros; try discriminate; rewrite ?mutations_get; reflexivity.
Qed.

Lemma Server_Step2_error_no_mutation s userID salt v A M1 w e :
  fst (Server.Step2 s userID salt v A M1 w) = Err e ->
  mutations (calls (snd (Server.Step2 s userID salt v A M1 w)))
  = mutations (calls w).
Proof.
  unfold Server.Step2, Server.hasTimedOut. step_cases;
    intros; try discriminate; rewrite ?mutations_get; reflexivity.
Qed.

(** *** Where a timeout error comes from *)

Lemma Client_Step2_timeout_inv c userID salt B w e :
  fst (Client.Step2 c userID salt B w) = Err e -> is_timeout e = true ->
  Client.timeout c <> 0 /\
  exists la,
    fst (fst (Get (Client.backend c) userID (store w))) !! "lastActivity"%string
      = Some (VTime la)
    /\ After (clock w (reads w)) (Add la (Client.timeout c)) = true.
Proof.
  unfold Client.Step2, Client.hasTimedOut. step_cases;
    intros He Ht; inversion He; subst; try discriminate.
  timeout_source.
Qed.

Lemma Client_Step3_timeout_inv c userID M2 w e :
  fst (Client.Step3 c userID M2 w) = Err e -> is_timeout e = true ->
  Client.timeout c <> 0 /\
  exists la,
    fst (fst (Get (Client.backend c) userID (store w))) !! "lastActivity"%string
      = Some (VTime la)
    /\ After (clock w (reads w)) (Add la (Client.timeout c)) = true.
Proof.
  unfold Client.Step3, Client.hasTimedOut. step_cases;
    intros He Ht; inversion He; subst; try discriminate.
  timeout_source.
Qed.

Lemma Server_Step2_timeout_inv s userID salt v A M1 w e :
  fst (Server.Step2 s userID salt v A M1 w) = Err e -> is_timeout e = true ->
  Server.timeout s <> 0 /\
  exists la,
    fst (fst (Get (Server.backend s) userID (store w))) !! "lastActivity"%string
      = Some (VTime la)
    /\ After (clock w (reads w)) (Add la (Server.timeout s)) = true.
Proof.
  unfold Server.Step2, Server.hasTimedOut. step_cases;
    intros He Ht; inversion He; subst; try discriminate.
  timeout_source.
Qed.

(** *** An invalid public value is rejected before any backend call *)

Lemma Client_Step2_invalid_B c userID salt B N w :
  Prime (Client.grp c) = Some N ->
  isValidPublicValue N B = false ->
  is_error (fst (Client.Step2 c userID salt B w)) = true
  /\ snd (Client.Step2 c userID salt B w) = w.
Proof.
  intros HN HB. unfold Client.Step2. run_monad. rewrite HN, HB. simpl.
  destruct (String.eqb userID ""); [split; reflexivity |].
  destruct salt; split; reflexivity.
Qed.

Lemma Server_Step2_invalid_A s userID salt v A M1 N w :
  Prime (Server.grp s) = Some N ->
  isValidPublicValue N A = false ->
  is_error (fst (Server.Step2 s userID salt v A M1 w)) = true
  /\ snd (Server.Step2 s userID salt v A M1 w) = w.
Proof.
  intros HN HA. unfold Server.Step2. run_monad. rewrite HN, HA. simpl.
  destruct (String.eqb userID ""); [split; reflexivity |].
  destruct salt; [| split; reflexivity].
  destruct v; [| split; reflexivity].
  destruct M1; split; reflexivity.
Qed.

(** With valid other arguments the error is the one of the public value. *)
Lemma Client_Step2_bad_server_value c userID salt B N w :
  userID <> ""%string ->
  Prime (Client.grp c) = Some N ->
  isValidPublicValue N B = false ->
  Client.Step2 c userID (Some salt) B w = (Err ErrBadServerPublicValue, w).
Proof.
  intros HI HN HB. unfold Client.Step2. run_monad. rewrite HN, HB. simpl.
  destruct (String.eqb_spec userID ""); [contradiction | reflexivity].
Qed.

Lemma Server_Step2_bad_client_value s userID salt v A M1 N w :
  userID <> ""%string ->
  Prime (Server.grp s) = Some N ->
  isValidPublicValue N A = false ->
  Server.Step2 s userID (Some salt) (Some v) A (Some M1) w
  = (Err ErrBadClientPublicValue, w).
Proof.
  intros HI HN HA. unfold Server.Step2. run_monad. rewrite HN, HA. simpl.
  destruct (String.eqb_spec userID ""); [contradiction | reflexivity].
Qed.

(** *** What the second steps return once the session has been read *)

Lemma not_timed_out (t : Duration) (la now : Time) :
  t = 0 \/ now <= la + t ->
  (if t =? 0 then false else After now (Add la t)) = false.
Proof.
  intros H. destruct (Z.eqb_spec t 0) as [| Hne]; [reflexivity |].
  unfold After, Add. apply Z.ltb_ge. lia.
Qed.

Lemma Server_Step2_checked s userID salt v A M1 w m st N la B b :
  userID <> ""%string ->
  Prime (Server.grp s) = Some N ->
  A mod N <> 0 ->
  Get (Server.backend s) userID (store w) = ((m, None), st) ->
  m !! "state"%string = Some (VState step1) ->
  m !! "lastActivity"%string = Some (VTime la) ->
  m !! "publicServerValue"%string = Some (VBigInt (Some B)) ->
  m !! "privateServerValue"%string = Some (VBigInt (Some b)) ->
  Server.timeout s = 0 \/ clock w (reads w) <= la + Server.timeout s ->
  let u := computeScramblingParameter (Server.fHash s) N A B in
  let S := computeServerSessionKey N v u A b in
  let r := Server.Step2 s userID (Some salt) (Some v) (Some A) (Some M1) w in
  if computeClientEvidence (Server.fHash s) A B S =? M1
  then fst r = Ok (computeServerEvidence (Server.fHash s) A M1 S)
       /\ exists err, calls (snd r)
                      = calls w ++ [CallGet userID None; CallDelete userID err]
  else fst r = Err ErrBadClientCredentials
       /\ store (snd r) = st
       /\ calls (snd r) = calls w ++ [CallGet userID None].
Proof.
  intros HI HN HA HG Hst Hla HB Hb Hto u S r.
  subst r u S. unfold Server.Step2, Server.hasTimedOut.
  destruct (String.eqb_spec userID ""); [contradiction |].
  run_monad. rewrite HN. simpl_world.
  unfold isValidPublicValue.
  destruct (Z.eqb_spec (A mod N) 0); [contradiction |].
  cbn [negb]. rewrite HG. simpl_world.
  rewrite Hst, Hla, HB, Hb. cbn [asState asTime asBigInt state_eqb negb].
  pose proof (not_timed_out _ _ _ Hto) as Hnt.
  destruct (Z.eqb_spec (Server.timeout s) 0) as [Hz | Hz]; simpl_world.
  - destruct (_ =? M1); cbn [negb]; simpl_world.
    + destruct (Delete _ _ _) as [err st']. simpl_world.
      rewrite <- app_assoc. split; [reflexivity | eexists; reflexivity].
    + repeat split; reflexivity.
  - rewrite Hnt.
    destruct (_ =? M1); cbn [negb]; simpl_world.
    + destruct (Delete _ _ _) as [err st']. simpl_world.
      rewrite <- app_assoc. split; [reflexivity | eexists; reflexivity].
    + repeat split; reflexivity.
Qed.

Lemma Client_Step3_checked c userID M2 w m st la A M1 S :
  userID <> ""%string ->
  Get (Client.backend c) userID (store w) = ((m, None), st) ->
  m !! "state"%string = Some (VState step2) ->
  m !! "lastActivity"%string = Some (VTime la) ->
  m !! "publicClientValue"%string = Some (VBigInt (Some A)) ->
  m !! "clientEvidence"%string = Some (VBigInt (Some M1)) ->
  m !! "sessionKey"%string = Some (VBigInt (Some S)) ->
  Client.timeout c = 0 \/ clock w (reads w) <= la + Client.timeout c ->
  let r := Client.Step3 c userID (Some M2) w in
  if computeServerEvidence (Client.fHash c) A M1 S =? M2
  then fst r = Ok tt
       /\ exists err, calls (snd r)
                      = calls w ++ [CallGet userID None; CallDelete userID err]
  else fst r = Err ErrBadServerCredentials
       /\ store (snd r) = st
       /\ calls (snd r) = calls w ++ [CallGet userID None].
Proof.
  intros HI HG Hst Hla HA HM1 HS Hto r.
  subst r. unfold Client.Step3, Client.hasTimedOut.
  destruct (String.eqb_spec userID ""); [contradiction |].
  run_monad. rewrite HG. simpl_world.
  rewrite Hst, Hla, HA, HM1, HS. cbn [asState asTime asBigInt state_eqb negb].
  pose proof (not_timed_out _ _ _ Hto) as Hnt.
  destruct (Z.eqb_spec (Client.timeout c) 0) as [Hz | Hz]; simpl_world.
  - destruct (_ =? M2); cbn [negb]; simpl_world.
    + destruct (Delete _ _ _) as [err st']. simpl_world.
      rewrite <- app_assoc. split; [reflexivity | eexists; reflexivity].
    + repeat split; reflexivity.
  - rewrite Hnt.
    destruct (_ =? M2); cbn [negb]; simpl_world.
    + destruct (Delete _ _ _) as [err st']. simpl_world.
      rewrite <- app_assoc. split; [reflexivity | eexists; reflexivity].
    + repeat split; reflexivity.
Qed.

Lemma Client_Step2_run c userID salt B w m st N g la pw a rng' :
  userID <> ""%string ->
  Prime (Client.grp c) = Some N ->
  Generator (Client.grp c) = Some g ->
  B mod N <> 0 ->
  Get (Client.backend c) userID (store w) = ((m, None), st) ->
  m !! "state"%string = Some (VState step1) ->
  m !! "lastActivity"%string = Some (VTime la) ->
  m !! "password"%string = Some (VString pw) ->
  Client.timeout c = 0 \/ clock w (reads w) <= la + Client.timeout c ->
  Client.generatePrivateValue c N (rng w) = ((Some a, None), rng') ->
  let x := Client.computeX c (Client.fHash c) salt userID pw in
  let A := computePublicClientValue N g a in
  let k := computeMultiplier (Client.fHash c) N g in
  let u := computeScramblingParameter (Client.fHash c) N A B in
  let S := computeClientSessionKey N g k x u a B in
  let M1 := computeClientEvidence (Client.fHash c) A B S in
  fst (Client.Step2 c userID (Some salt) (Some B) w) = Ok (A, M1).
Proof.
  intros HI HN Hg HB HG Hst Hla Hpw Hto Hgen x A k u S M1.
  subst x A k u S M1. unfold Client.Step2, Client.hasTimedOut.
  destruct (String.eqb_spec userID ""); [contradiction |].
  run_monad. rewrite HN, Hg. simpl_world.
  unfold isValidPublicValue.
  destruct (Z.eqb_spec (B mod N) 0); [contradiction |].
  cbn [negb]. rewrite HG. simpl_world.
  rewrite Hst, Hla, Hpw. cbn [asState asTime asString state_eqb negb].
  pose proof (not_timed_out _ _ _ Hto) as Hnt.
  destruct (Z.eqb_spec (Client.timeout c) 0) as [Hz | Hz]; simpl_world.
  - rewrite Hgen. simpl_world.
    destruct (Put _ _ _ _) as [err st']. reflexivity.
  - rewrite Hnt. simpl_world. rewrite Hgen. simpl_world.
    destruct (Put _ _ _ _) as [err st']. reflexivity.
Qed.

End StepFacts.

(** ** What the constructors establish *)

Lemma Client_exported_keeps_configured {St} (opt : Client.ClientOption)
    (c c' : Client.t St) :
  Client.exported opt -> Client.configured c -> opt c = Ok c' ->
  Client.configured c'.
Proof.
  intros Hopt [[N [g [HN Hg]]] Ht] Hrun. destruct Hopt as [h | gr | f | d].
  - destruct h; inversion Hrun; subst. split; [exists N, g |]; auto.
  - destruct gr as [gr |]; [| discriminate]. unfold Client.ClientGroup in Hrun.
    destruct (Prime gr) as [N' |] eqn:HN'; [| discriminate].
    destruct (Generator gr) as [g' |] eqn:Hg'; [| discriminate].
    inversion Hrun; subst. split; [exists N', g' |]; auto.
  - destruct f; inversion Hrun; subst. split; [exists N, g |]; auto.
  - unfold Client.ClientTimeout in Hrun.
    destruct (Z.ltb_spec d 0); inversion Hrun; subst.
    split; [exists N, g |]; auto.
Qed.

Lemma NewClient_configured {St} sha256 (b : Backend St) options c :
  Forall Client.exported options ->
  Client.NewClient sha256 b options = Ok c -> Client.configured c.
Proof.
  unfold Client.NewClient.
  set (c0 := {| Client.backend := b |}).
  assert (H0 : Client.configured c0).
  { split; [eexists _, _; split; reflexivity | simpl; lia]. }
  clearbody c0. intros Hall. revert c0 H0.
  induction Hall as [| opt rest Hopt _ IH]; intros c0 H0 Hrun; simpl in Hrun.
  - inversion Hrun; subst. exact H0.
  - destruct (opt c0) as [c1 | e | p] eqn:Hc1; try discriminate.
    apply (IH c1); [| exact Hrun].
    exact (Client_exported_keeps_configured opt c0 c1 Hopt H0 Hc1).
Qed.

Lemma Server_exported_keeps_configured {St} (opt : Server.ServerOption)
    (s s' : Server.t St) :
  Server.exported opt -> Server.configured s -> opt s = Ok s' ->
  Server.configured s'.
Proof.
  intros Hopt [[N [g [HN Hg]]] Ht] Hrun. destruct Hopt as [h | gr | f | d].
  - destruct h; inversion Hrun; subst. split; [exists N, g |]; auto.
  - destruct gr as [gr |]; [| discriminate]. unfold Server.ServerGroup in Hrun.
    destruct (Prime gr) as [N' |] eqn:HN'; [| discriminate].
    destruct (Generator gr) as [g' |] eqn:Hg'; [| discriminate].
    inversion Hrun; subst. split; [exists N', g' |]; auto.
  - destruct f; inversion Hrun; subst. split; [exists N, g |]; auto.
  - unfold Server.ServerTimeout in Hrun.
    destruct (Z.ltb_spec d 0); inversion Hrun; subst.
    split; [exists N, g |]; auto.
Qed.

Lemma NewServer_configured {St} sha256 (b : Backend St) options s :
  Forall Server.exported options ->
  Server.NewServer sha256 b options = Ok s -> Server.configured s.
Proof.
  unfold Server.NewServer.
  set (s0 := {| Server.backend := b |}).
  assert (H0 : Server.configured s0).
  { split; [eexists _, _; split; reflexivity | simpl; lia]. }
  clearbody s0. intros Hall. revert s0 H0.
  induction Hall as [| opt rest Hopt _ IH]; intros s0 H0 Hrun; simpl in Hrun.
  - inversion Hrun; subst. exact H0.
  - destruct (opt s0) as [s1 | e | p] eqn:Hs1; try discriminate.
    apply (IH s1); [| exact Hrun].
    exact (Server_exported_keeps_configured opt s0 s1 Hopt H0 Hs1).
Qed.

(* ===================================================================== *)
(** * The claims about the storage backend                                *)
(* ===================================================================== *)

(** The in-memory backend returns the stored session and keeps its store. *)
Lemma MemoryGet_found (key : string) (val : session) (m : MemoryStore) :
  m !! key = Some val -> Get MemoryBackend key m = ((val, None), m).
Proof. intros Hm. simpl. unfold MemoryGet. rewrite Hm. reflexivity. Qed.

Lemma MemoryGet_missing (key : string) (m : MemoryStore) :
  m !! key = None ->
  Get MemoryBackend key m = ((∅, Some "key not found"%string), m).
Proof. intros Hm. simpl. unfold MemoryGet. rewrite Hm. reflexivity. Qed.

(** The read path: an error of [Get] comes back wrapped, in each of the
    three steps that read the session. *)
Lemma Get_error_is_returned {St} (c : Client.t St) (s : Server.t St)
    userID salt B M2 v A M1 N (w : World St) m err st :
  userID <> ""%string ->
  Prime (Client.grp c) = Some N -> Prime (Server.grp s) = Some N ->
  B mod N <> 0 -> A mod N <> 0 ->
  Get (Client.backend c) userID (store w) = ((m, Some err), st) ->
  Get (Server.backend s) userID (store w) = ((m, Some err), st) ->
  fst (Client.Step2 c userID (Some salt) (Some B) w)
    = Err (ErrBackendGet "step2" err)
  /\ fst (Client.Step3 c userID (Some M2) w) = Err (ErrBackendGet "step3" err)
  /\ fst (Server.Step2 s userID (Some salt) (Some v) (Some A) (Some M1) w)
    = Err (ErrBackendGet "step2" err).
Proof.
  intros HI HNc HNs HB HA HGc HGs.
  unfold Client.Step2, Client.Step3, Server.Step2, isValidPublicValue.
  destruct (String.eqb_spec userID ""); [contradiction |].
  run_monad. rewrite HNc, HNs. simpl_world.
  destruct (Z.eqb_spec (B mod N) 0); [contradiction |].
  destruct (Z.eqb_spec (A mod N) 0); [contradiction |].
  cbn [negb]. rewrite HGc, HGs. simpl_world. repeat split; reflexivity.
Qed.

(** C3 (the code departs from the claim). On a backend whose [Put] and
    [Delete] return an error, each of the five steps still returns a nil
    error: Client.Step1 and Server.Step1 after the failed [Put],
    Client.Step2 after the failed [Put], Server.Step2 and Client.Step3 after
    the failed [Delete]. The log shows the error the backend returned. *)
Theorem C3_put_and_delete_errors_are_dropped :
  let H := SHA1.sum in
  let c := Scenario.client H Scenario.failingBackend 0 in
  let s := Scenario.server H Scenario.failingBackend 0 in
  let failed := Some "backend unavailable"%string in
  let empty := Scenario.world ∅ 1000 in
  let at1 := Scenario.world {[ Scenario.userID := Scenario.clientSession1 1000 ]} 1000 in
  let at2 := Scenario.world {[ Scenario.userID := Scenario.clientSession2 H 1000 ]} 1000 in
  let srv := Scenario.world {[ Scenario.userID := Scenario.serverSession1 H 1000 ]} 1000 in
  let c1 := Client.Step1 c Scenario.userID Scenario.password empty in
  let s1 := Server.Step1 s Scenario.userID (Some Scenario.salt)
              (Some (Scenario.v H)) empty in
  let c2 := Client.Step2 c Scenario.userID (Some Scenario.salt)
              (Some (Scenario.B H)) at1 in
  let s2 := Server.Step2 s Scenario.userID (Some Scenario.salt)
              (Some (Scenario.v H)) (Some Scenario.A) (Some (Scenario.M1 H)) srv in
  let c3 := Client.Step3 c Scenario.userID (Some (Scenario.M2 H)) at2 in
  (fst c1 = Ok tt /\ returned_errors c1 = [failed])
  /\ (fst s1 = Ok (Scenario.B H) /\ returned_errors s1 = [failed])
  /\ (fst c2 = Ok (Scenario.A, Scenario.M1 H) /\ returned_errors c2 = [None; failed])
  /\ (fst s2 = Ok (Scenario.M2 H) /\ returned_errors s2 = [None; failed])
  /\ (fst c3 = Ok tt /\ returned_errors c3 = [None; failed]).
Proof. vm_compute. repeat split; reflexivity. Qed.

(** C4. A step that returns an error has issued no [Put] and no [Delete]:
    this holds for Client.Step2, Client.Step3 and Server.Step2, whatever the
    error. In particular Server.Step2 with an M1 other than the recomputed
    one returns the authentication error "bad client credentials", and
    Client.Step3 with an M2 other than the recomputed one returns "bad server
    credentials"; in both the only backend call is the [Get], and the backend
    state is the one that [Get] left. *)
Theorem C4_failed_step_does_not_mutate
    {St} (c : Client.t St) (s : Server.t St) (userID : string) (w : World St) :
  (forall salt B e,
      fst (Client.Step2 c userID salt B w) = Err e ->
      mutations (calls (snd (Client.Step2 c userID salt B w)))
      = mutations (calls w))
  /\ (forall M2 e,
      fst (Client.Step3 c userID M2 w) = Err e ->
      mutations (calls (snd (Client.Step3 c userID M2 w))) = mutations (calls w))
  /\ (forall salt v A M1 e,
      fst (Server.Step2 s userID salt v A M1 w) = Err e ->
      mutations (calls (snd (Server.Step2 s userID salt v A M1 w)))
      = mutations (calls w))
  /\ (forall salt v A M1 m st N la B b,
      userID <> ""%string ->
      Prime (Server.grp s) = Some N ->
      A mod N <> 0 ->
      Get (Server.backend s) userID (store w) = ((m, None), st) ->
      m !! "state"%string = Some (VState step1) ->
      m !! "lastActivity"%string = Some (VTime la) ->
      m !! "publicServerValue"%string = Some (VBigInt (Some B)) ->
      m !! "privateServerValue"%string = Some (VBigInt (Some b)) ->
      Server.timeout s = 0 \/ clock w (reads w) <= la + Server.timeout s ->
      M1 <> computeClientEvidence (Server.fHash s) A B
              (computeServerSessionKey N v
                 (computeScramblingParameter (Server.fHash s) N A B) A b) ->
      let r := Server.Step2 s userID (Some salt) (Some v) (Some A) (Some M1) w in
      fst r = Err ErrBadClientCredentials
      /\ store (snd r) = st
      /\ calls (snd r) = calls w ++ [CallGet userID None])
  /\ (forall M2 m st la A M1 S,
      userID <> ""%string ->
      Get (Client.backend c) userID (store w) = ((m, None), st) ->
      m !! "state"%string = Some (VState step2) ->
      m !! "lastActivity"%string = Some (VTime la) ->
      m !! "publicClientValue"%string = Some (VBigInt (Some A)) ->
      m !! "clientEvidence"%string = Some (VBigInt (Some M1)) ->
      m !! "sessionKey"%string = Some (VBigInt (Some S)) ->
      Client.timeout c = 0 \/ clock w (reads w) <= la + Client.timeout c ->
      M2 <> computeServerEvidence (Client.fHash c) A M1 S ->
      let r := Client.Step3 c userID (Some M2) w in
      fst r = Err ErrBadServerCredentials
      /\ store (snd r) = st
      /\ calls (snd r) = calls w ++ [CallGet userID None]).
Proof.
  split; [| split; [| split; [| split]]].
  - intros salt B e. apply Client_Step2_error_no_mutation.
  - intros M2 e. apply Client_Step3_error_no_mutation.
  - intros salt v A M1 e. apply Server_Step2_error_no_mutation.
  - intros salt v A M1 m st N la B b HI HN HA HG Hst Hla HB Hb Hto HM1.
    pose proof (Server_Step2_checked s userID salt v A M1 w m st N la B b
                  HI HN HA HG Hst Hla HB Hb Hto) as Hrun.
    cbv zeta in Hrun.
    destruct (Z.eqb_spec
                (computeClientEvidence (Server.fHash s) A B
                   (computeServerSessionKey N v
                      (computeScramblingParameter (Server.fHash s) N A B) A b))
                M1) as [Heq | Hne]; [congruence | exact Hrun].
  - intros M2 m st la A M1 S HI HG Hst Hla HA HM1 HS Hto HM2.
    pose proof (Client_Step3_checked c userID M2 w m st la A M1 S
                  HI HG Hst Hla HA HM1 HS Hto) as Hrun.
    cbv zeta in Hrun.
    destruct (Z.eqb_spec (computeServerEvidence (Client.fHash c) A M1 S) M2)
      as [Heq | Hne]; [congruence | exact Hrun].
Qed.

Lemma C4_failed_step_does_not_mutate_witness :
  let H := SHA1.sum in
  let s := Scenario.server H MemoryBackend 0 in
  let c := Scenario.client H MemoryBackend 0 in
  let st : MemoryStore :=
    {[ Scenario.userID := Scenario.serverSession1 H 1000 ]} in
  let w := Scenario.world st 2000 in
  let r := Server.Step2 s Scenario.userID (Some Scenario.salt)
             (Some (Scenario.v H)) (Some Scenario.A)
             (Some (Scenario.M1 H + 1)) w in
  Scenario.M1 H + 1 <> Scenario.M1 H
  /\ fst r = Err ErrBadClientCredentials
  /\ store (snd r) = st
  /\ calls (snd r) = calls w ++ [CallGet Scenario.userID None].
Proof.
  intros H s c st w. split; [lia |].
  apply (proj1 (proj2 (proj2 (proj2
           (C4_failed_step_does_not_mutate c s Scenario.userID w))))
           Scenario.salt (Scenario.v H) Scenario.A (Scenario.M1 H + 1)
           (Scenario.serverSession1 H 1000) st Scenario.N 1000
           (Scenario.B H) Scenario.b).
  - discriminate.
  - reflexivity.
  - vm_compute. discriminate.
  - apply MemoryGet_found, lookup_singleton_eq.
  - vm_compute. reflexivity.
  - vm_compute. reflexivity.
  - vm_compute. reflexivity.
  - vm_compute. reflexivity.
  - left. reflexivity.
  - vm_compute. discriminate.
Defined.

(* ===================================================================== *)
(** * The scrambling parameter                                            *)
(* ===================================================================== *)

(** C5, the claim as stated fails: with a hash whose digest is all zero the
    scrambling parameter of the run is 0, and Client.Step2 and Server.Step2
    both return without an error. *)
Lemma C5_zero_u_counterexample :
  let H := Scenario.zeroHash in
  let c := Scenario.client H MemoryBackend 0 in
  let s := Scenario.server H MemoryBackend 0 in
  let at1 := Scenario.world {[ Scenario.userID := Scenario.clientSession1 1000 ]} 1000 in
  let srv := Scenario.world {[ Scenario.userID := Scenario.serverSession1 H 1000 ]} 1000 in
  computeScramblingParameter H Scenario.N Scenario.A (Scenario.B H) = 0
  /\ fst (Client.Step2 c Scenario.userID (Some Scenario.salt)
            (Some (Scenario.B H)) at1)
     = Ok (Scenario.A, Scenario.M1 H)
  /\ fst (Server.Step2 s Scenario.userID (Some Scenario.salt)
            (Some (Scenario.v H)) (Some Scenario.A) (Some (Scenario.M1 H)) srv)
     = Ok (Scenario.M2 H).
Proof. vm_compute. repeat split; reflexivity. Qed.

(** C5, amended. The scrambling parameter is computed and never tested. When
    the arguments are valid, the session is read without error, holds the
    fields of state step1 and has not timed out, Client.Step2 returns A and
    the M1 made from the session key for u = H(PAD(A) || PAD(B)), and
    Server.Step2, given that M1, returns M2: whatever the value of u, 0
    included. *)
Theorem C5_u_is_not_tested
    {St} (c : Client.t St) (s : Server.t St) (userID : string) (salt : bytes)
    (w : World St) :
  userID <> ""%string ->
  (forall B m st N g la pw a rng',
      Prime (Client.grp c) = Some N ->
      Generator (Client.grp c) = Some g ->
      B mod N <> 0 ->
      Get (Client.backend c) userID (store w) = ((m, None), st) ->
      m !! "state"%string = Some (VState step1) ->
      m !! "lastActivity"%string = Some (VTime la) ->
      m !! "password"%string = Some (VString pw) ->
      Client.timeout c = 0 \/ clock w (reads w) <= la + Client.timeout c ->
      Client.generatePrivateValue c N (rng w) = ((Some a, None), rng') ->
      let x := Client.computeX c (Client.fHash c) salt userID pw in
      let A := computePublicClientValue N g a in
      let k := computeMultiplier (Client.fHash c) N g in
      let u := computeScramblingParameter (Client.fHash c) N A B in
      let S := computeClientSessionKey N g k x u a B in
      fst (Client.Step2 c userID (Some salt) (Some B) w)
      = Ok (A, computeClientEvidence (Client.fHash c) A B S))
  /\ (forall v A m st N la B b,
      Prime (Server.grp s) = Some N ->
      A mod N <> 0 ->
      Get (Server.backend s) userID (store w) = ((m, None), st) ->
      m !! "state"%string = Some (VState step1) ->
      m !! "lastActivity"%string = Some (VTime la) ->
      m !! "publicServerValue"%string = Some (VBigInt (Some B)) ->
      m !! "privateServerValue"%string = Some (VBigInt (Some b)) ->
      Server.timeout s = 0 \/ clock w (reads w) <= la + Server.timeout s ->
      let u := computeScramblingParameter (Server.fHash s) N A B in
      let S := computeServerSessionKey N v u A b in
      let M1 := computeClientEvidence (Server.fHash s) A B S in
      fst (Server.Step2 s userID (Some salt) (Some v) (Some A) (Some M1) w)
      = Ok (computeServerEvidence (Server.fHash s) A M1 S)).
Proof.
  intros HI. split.
  - intros B m st N g la pw a rng' HN Hg HB HG Hst Hla Hpw Hto Hgen.
    exact (Client_Step2_run c userID salt B w m st N g la pw a rng'
             HI HN Hg HB HG Hst Hla Hpw Hto Hgen).
  - intros v A m st N la B b HN HA HG Hst Hla HB Hb Hto u S M1.
    pose proof (Server_Step2_checked s userID salt v A M1 w m st N la B b
                  HI HN HA HG Hst Hla HB Hb Hto) as Hrun.
    cbv zeta in Hrun. subst M1 S u.
    rewrite Z.eqb_refl in Hrun. exact (proj1 Hrun).
Qed.

Lemma C5_u_is_not_tested_witness :
  let H := Scenario.zeroHash in
  let s := Scenario.server H MemoryBackend 0 in
  let st : MemoryStore :=
    {[ Scenario.userID := Scenario.serverSession1 H 1000 ]} in
  let w := Scenario.world st 2000 in
  let u := computeScramblingParameter H Scenario.N Scenario.A (Scenario.B H) in
  let S := computeServerSessionKey Scenario.N (Scenario.v H) u Scenario.A
             Scenario.b in
  let M1 := computeClientEvidence H Scenario.A (Scenario.B H) S in
  u = 0
  /\ fst (Server.Step2 s Scenario.userID (Some Scenario.salt)
            (Some (Scenario.v H)) (Some Scenario.A) (Some M1) w)
     = Ok (computeServerEvidence H Scenario.A M1 S).
Proof.
  intros H s st w u S M1. split; [vm_compute; reflexivity |].
  assert (HI : Scenario.userID <> ""%string) by discriminate.
  apply (proj2 (C5_u_is_not_tested (Scenario.client H MemoryBackend 0) s
                  Scenario.userID Scenario.salt w HI)
           (Scenario.v H) Scenario.A (Scenario.serverSession1 H 1000) st
           Scenario.N 1000 (Scenario.B H) Scenario.b).
  - reflexivity.
  - vm_compute. discriminate.
  - apply MemoryGet_found, lookup_singleton_eq.
  - vm_compute. reflexivity.
  - vm_compute. reflexivity.
  - vm_compute. reflexivity.
  - vm_compute. reflexivity.
  - left. reflexivity.
Defined.

(* ===================================================================== *)
(** * Validation of the public values                                     *)
(* ===================================================================== *)

Lemma isValidPublicValue_spec N X :
  isValidPublicValue N (Some X) = true <-> X mod N <> 0.
Proof.
  unfold isValidPublicValue.
  destruct (Z.eqb_spec (X mod N) 0) as [Heq | Hne]; simpl; split; intros H;
    try reflexivity; try assumption; try discriminate; contradiction.
Qed.

Lemma invalid_public_value N (X : option Z) :
  X = None \/ (exists x, X = Some x /\ x mod N = 0) ->
  isValidPublicValue N X = false.
Proof.
  intros [-> | [x [-> Hx]]]; [reflexivity |].
  unfold isValidPublicValue. rewrite Hx. reflexivity.
Qed.

(** C6. For a group modulus N > 0, [isValidPublicValue N X] is true exactly
    when X mod N <> 0, and false on a nil value. Hence Client.Step2 returns
    an error for every B that is nil or a multiple of N (B = 0 included), and
    Server.Step2 for every such A, and in both the world is left as it was:
    no backend call has been made. *)
Theorem C6_public_value_validation
    {St} (N : Z) (c : Client.t St) (s : Server.t St) :
  0 < N ->
  Prime (Client.grp c) = Some N ->
  Prime (Server.grp s) = Some N ->
  (forall X, isValidPublicValue N (Some X) = true <-> X mod N <> 0)
  /\ isValidPublicValue N None = false
  /\ (forall userID salt B w,
        B = None \/ (exists X, B = Some X /\ X mod N = 0) ->
        is_error (fst (Client.Step2 c userID salt B w)) = true
        /\ snd (Client.Step2 c userID salt B w) = w)
  /\ (forall userID salt v A M1 w,
        A = None \/ (exists X, A = Some X /\ X mod N = 0) ->
        is_error (fst (Server.Step2 s userID salt v A M1 w)) = true
        /\ snd (Server.Step2 s userID salt v A M1 w) = w).
Proof.
  intros HN Hc Hs. split; [| split; [| split]].
  - intros X. apply isValidPublicValue_spec.
  - reflexivity.
  - intros userID salt B w HB.
    apply (Client_Step2_invalid_B c userID salt B N w Hc).
    apply invalid_public_value, HB.
  - intros userID salt v A M1 w HA.
    apply (Server_Step2_invalid_A s userID salt v A M1 N w Hs).
    apply invalid_public_value, HA.
Qed.

Lemma C6_public_value_validation_witness :
  let c := Scenario.client SHA1.sum MemoryBackend 0 in
  let w := Scenario.world ∅ 1000 in
  0 < 23
  /\ 46 mod 23 = 0
  /\ is_error (fst (Client.Step2 c "alice" (Some Scenario.salt) (Some 46) w)) = true
  /\ snd (Client.Step2 c "alice" (Some Scenario.salt) (Some 46) w) = w.
Proof.
  intros c w.
  assert (HN : 0 < 23) by lia.
  assert (H46 : 46 mod 23 = 0) by reflexivity.
  split; [exact HN |]. split; [exact H46 |].
  apply (proj1 (proj2 (proj2
    (C6_public_value_validation 23 c (Scenario.server SHA1.sum MemoryBackend 0)
       HN eq_refl eq_refl)))).
  right. exists 46. split; [reflexivity | exact H46].
Defined.

(* ===================================================================== *)
(** * The timeout                                                         *)
(* ===================================================================== *)

Lemma Client_hasTimedOut_zero {St} (c : Client.t St) la (w : World St) :
  Client.timeout c = 0 -> Client.hasTimedOut c la w = (Ok false, w).
Proof. intros H. unfold Client.hasTimedOut. rewrite H. reflexivity. Qed.

Lemma Server_hasTimedOut_zero {St} (s : Server.t St) la (w : World St) :
  Server.timeout s = 0 -> Server.hasTimedOut s la w = (Ok false, w).
Proof. intros H. unfold Server.hasTimedOut. rewrite H. reflexivity. Qed.

Lemma Client_hasTimedOut_positive {St} (c : Client.t St) la (w : World St) :
  Client.timeout c <> 0 ->
  fst (Client.hasTimedOut c la w)
  = Ok (After (clock w (reads w)) (Add la (Client.timeout c))).
Proof.
  intros H. unfold Client.hasTimedOut.
  destruct (Z.eqb_spec (Client.timeout c) 0); [contradiction | reflexivity].
Qed.

Lemma Server_hasTimedOut_positive {St} (s : Server.t St) la (w : World St) :
  Server.timeout s <> 0 ->
  fst (Server.hasTimedOut s la w)
  = Ok (After (clock w (reads w)) (Add la (Server.timeout s))).
Proof.
  intros H. unfold Server.hasTimedOut.
  destruct (Z.eqb_spec (Server.timeout s) 0); [contradiction | reflexivity].
Qed.

Lemma not_timeout_error (e : error) (P : Prop) :
  (is_timeout e = true -> P) -> ~ P -> is_timeout e = false.
Proof. intros H HnP. destruct (is_timeout e); [exfalso; auto | reflexivity]. Qed.

(** C7. With the timeout set to 0, [hasTimedOut] of the client and of the
    server returns false for every [lastActivity], without reading the clock,
    and no error returned by Client.Step2, Client.Step3 or Server.Step2 is a
    timeout error. *)
Theorem C7_zero_timeout_never_times_out
    {St} (c : Client.t St) (s : Server.t St) :
  Client.timeout c = 0 ->
  Server.timeout s = 0 ->
  (forall la w, Client.hasTimedOut c la w = (Ok false, w))
  /\ (forall la w, Server.hasTimedOut s la w = (Ok false, w))
  /\ (forall userID salt B w e,
        fst (Client.Step2 c userID salt B w) = Err e -> is_timeout e = false)
  /\ (forall userID M2 w e,
        fst (Client.Step3 c userID M2 w) = Err e -> is_timeout e = false)
  /\ (forall userID salt v A M1 w e,
        fst (Server.Step2 s userID salt v A M1 w) = Err e ->
        is_timeout e = false).
Proof.
  intros Hc Hs. split; [| split; [| split; [| split]]].
  - intros la w. apply Client_hasTimedOut_zero, Hc.
  - intros la w. apply Server_hasTimedOut_zero, Hs.
  - intros userID salt B w e He.
    apply (not_timeout_error e (Client.timeout c <> 0)); [| tauto].
    intros Ht. exact (proj1 (Client_Step2_timeout_inv _ _ _ _ _ _ He Ht)).
  - intros userID M2 w e He.
    apply (not_timeout_error e (Client.timeout c <> 0)); [| tauto].
    intros Ht. exact (proj1 (Client_Step3_timeout_inv _ _ _ _ _ He Ht)).
  - intros userID salt v A M1 w e He.
    apply (not_timeout_error e (Server.timeout s <> 0)); [| tauto].
    intros Ht. exact (proj1 (Server_Step2_timeout_inv _ _ _ _ _ _ _ _ He Ht)).
Qed.

Lemma C7_zero_timeout_never_times_out_witness :
  let c := Scenario.client SHA1.sum MemoryBackend 0 in
  let w := Scenario.world ∅ 1000000000000000000 in
  Client.timeout c = 0
  /\ Client.hasTimedOut c 0 w = (Ok false, w).
Proof.
  intros c w. split; [reflexivity |].
  apply (proj1 (C7_zero_timeout_never_times_out c
                  (Scenario.server SHA1.sum MemoryBackend 0) eq_refl eq_refl)).
Defined.

(** C10. With a timeout t > 0, [hasTimedOut] returns true exactly when the
    clock reading is strictly after lastActivity + t; when the reading equals
    lastActivity + t it returns false, and then no error returned by
    Client.Step2, Client.Step3 or Server.Step2 on a session with that
    [lastActivity] is a timeout error. *)
Theorem C10_timeout_is_strict
    {St} (c : Client.t St) (s : Server.t St) (la : Time) (w : World St) :
  0 < Client.timeout c ->
  0 < Server.timeout s ->
  (fst (Client.hasTimedOut c la w) = Ok true
   <-> la + Client.timeout c < clock w (reads w))
  /\ (fst (Server.hasTimedOut s la w) = Ok true
      <-> la + Server.timeout s < clock w (reads w))
  /\ (clock w (reads w) = la + Client.timeout c ->
      fst (Client.hasTimedOut c la w) = Ok false
      /\ (forall userID salt B e,
            fst (fst (Get (Client.backend c) userID (store w)))
              !! "lastActivity"%string = Some (VTime la) ->
            fst (Client.Step2 c userID salt B w) = Err e ->
            is_timeout e = false)
      /\ (forall userID M2 e,
            fst (fst (Get (Client.backend c) userID (store w)))
              !! "lastActivity"%string = Some (VTime la) ->
            fst (Client.Step3 c userID M2 w) = Err e ->
            is_timeout e = false))
  /\ (clock w (reads w) = la + Server.timeout s ->
      fst (Server.hasTimedOut s la w) = Ok false
      /\ (forall userID salt v A M1 e,
            fst (fst (Get (Server.backend s) userID (store w)))
              !! "lastActivity"%string = Some (VTime la) ->
            fst (Server.Step2 s userID salt v A M1 w) = Err e ->
            is_timeout e = false)).
Proof.
  intros Hc Hs.
  assert (Hc0 : Client.timeout c <> 0) by lia.
  assert (Hs0 : Server.timeout s <> 0) by lia.
  rewrite (Client_hasTimedOut_positive c la w Hc0).
  rewrite (Server_hasTimedOut_positive s la w Hs0).
  unfold After, Add.
  split; [| split; [| split]].
  - destruct (Z.ltb_spec (la + Client.timeout c) (clock w (reads w)));
      split; intros H'; try reflexivity; try assumption; try discriminate; lia.
  - destruct (Z.ltb_spec (la + Server.timeout s) (clock w (reads w)));
      split; intros H'; try reflexivity; try assumption; try discriminate; lia.
  - intros Hnow. rewrite Hnow, Z.ltb_irrefl. split; [reflexivity |]. split.
    + intros userID salt B e Hla He.
      apply (not_timeout_error e False); [| tauto]. intros Ht.
      destruct (Client_Step2_timeout_inv _ _ _ _ _ _ He Ht) as [_ [la' [Hla' Haf]]].
      rewrite Hla in Hla'. inversion Hla'; subst la'.
      unfold After, Add in Haf. rewrite Hnow, Z.ltb_irrefl in Haf. discriminate.
    + intros userID M2 e Hla He.
      apply (not_timeout_error e False); [| tauto]. intros Ht.
      destruct (Client_Step3_timeout_inv _ _ _ _ _ He Ht) as [_ [la' [Hla' Haf]]].
      rewrite Hla in Hla'. inversion Hla'; subst la'.
      unfold After, Add in Haf. rewrite Hnow, Z.ltb_irrefl in Haf. discriminate.
  - intros Hnow. rewrite Hnow, Z.ltb_irrefl. split; [reflexivity |].
    intros userID salt v A M1 e Hla He.
    apply (not_timeout_error e False); [| tauto]. intros Ht.
    destruct (Server_Step2_timeout_inv _ _ _ _ _ _ _ _ He Ht) as [_ [la' [Hla' Haf]]].
    rewrite Hla in Hla'. inversion Hla'; subst la'.
    unfold After, Add in Haf. rewrite Hnow, Z.ltb_irrefl in Haf. discriminate.
Qed.

Lemma C10_timeout_is_strict_witness :
  let c := Scenario.client SHA1.sum MemoryBackend 30 in
  let s := Scenario.server SHA1.sum MemoryBackend 30 in
  let w := Scenario.world ∅ 1030 in
  0 < Client.timeout c
  /\ clock w (reads w) = 1000 + Client.timeout c
  /\ fst (Client.hasTimedOut c 1000 w) = Ok false.
Proof.
  intros c s w.
  assert (Hc : 0 < Client.timeout c) by (simpl; lia).
  assert (Hs : 0 < Server.timeout s) by (simpl; lia).
  assert (Hnow : clock w (reads w) = 1000 + Client.timeout c) by reflexivity.
  split; [exact Hc |]. split; [exact Hnow |].
  exact (proj1 (proj1 (proj2 (proj2 (C10_timeout_is_strict c s 1000 w Hc Hs))) Hnow)).
Defined.

(* ===================================================================== *)
(** * The salt of Server.Step2 and the nil group                          *)
(* ===================================================================== *)

(** C8. The salt of Server.Step2 is tested for nil and not used: for any two
    salts that are not nil, and the same server, world and other arguments,
    Server.Step2 returns the same result (the same M2 or the same error) and
    leaves the same world. *)
Theorem C8_server_step2_ignores_salt
    {St} (s : Server.t St) (userID : string) (salt1 salt2 : bytes)
    (verifier publicClientValue clientEvidence : option Z) (w : World St) :
  Server.Step2 s userID (Some salt1) verifier publicClientValue clientEvidence w
  = Server.Step2 s userID (Some salt2) verifier publicClientValue clientEvidence w.
Proof. unfold Server.Step2. destruct (String.eqb userID ""); reflexivity. Qed.

(** C9. The group options read the fields of the group through the pointer
    they are given: on a nil [*Group] the option panics with a nil pointer
    dereference, and so does the constructor that applies it, instead of
    returning an error. On a group that is not nil the option returns the
    configuration error exactly when the prime or the generator is nil. *)
Theorem C9_nil_group_panics
    {St} (sha256 : HashFn) (b : Backend St) :
  (forall c : Client.t St, Client.ClientGroup None c = Panic NilPointerDereference)
  /\ (forall s : Server.t St, Server.ServerGroup None s = Panic NilPointerDereference)
  /\ (forall v, Verifier.VerifierGroup None v = Panic NilPointerDereference)
  /\ (forall rest,
        Client.NewClient sha256 b (Client.ClientGroup None :: rest)
        = Panic NilPointerDereference)
  /\ (forall rest,
        Server.NewServer sha256 b (Server.ServerGroup None :: rest)
        = Panic NilPointerDereference)
  /\ (forall rest,
        Verifier.NewVerifier sha256 (Verifier.VerifierGroup None :: rest)
        = Panic NilPointerDereference)
  /\ (forall g (c : Client.t St),
        Client.ClientGroup (Some g) c = Err ErrNilGroupComponent
        <-> Prime g = None \/ Generator g = None)
  /\ (forall g (s : Server.t St),
        Server.ServerGroup (Some g) s = Err ErrNilGroupComponent
        <-> Prime g = None \/ Generator g = None)
  /\ (forall g v,
        Verifier.VerifierGroup (Some g) v = Err ErrNilGroupComponent
        <-> Prime g = None \/ Generator g = None).
Proof.
  repeat apply conj; try reflexivity.
  - intros g c. unfold Client.ClientGroup.
    destruct (Prime g), (Generator g); split; intros H;
      try reflexivity; try discriminate; try (left; reflexivity);
      try (right; reflexivity); destruct H; discriminate.
  - intros g s. unfold Server.ServerGroup.
    destruct (Prime g), (Generator g); split; intros H;
      try reflexivity; try discriminate; try (left; reflexivity);
      try (right; reflexivity); destruct H; discriminate.
  - intros g v. unfold Verifier.VerifierGroup.
    destruct (Prime g), (Generator g); split; intros H;
      try reflexivity; try discriminate; try (left; reflexivity);
      try (right; reflexivity); destruct H; discriminate.
Qed.


(* ===================================================================== *)
(** * Further properties: the in-memory backend                           *)
(* ===================================================================== *)

(** X1. What [Put] stores under a key, [Get] returns for that key with a
    nil error, whatever the store held before; [Put] itself returns a nil
    error. *)
Theorem Memory_put_then_get (key : string) (val : session) (m : MemoryStore) :
  let p := Put MemoryBackend key val m in
  fst p = None /\ Get MemoryBackend key (snd p) = ((val, None), snd p).
Proof.
  simpl. split; [reflexivity |].
  apply MemoryGet_found, lookup_insert_eq.
Qed.

(** X2. After [Delete], [Get] of the key returns the error "key not found"
    with the nil map; [Delete] returns a nil error also for a key that is
    absent, and then leaves the store as it was. *)
Theorem Memory_delete_then_get (key : string) (m : MemoryStore) :
  let d := Delete MemoryBackend key m in
  fst d = None
  /\ Get MemoryBackend key (snd d) = ((∅, Some "key not found"%string), snd d)
  /\ (m !! key = None -> snd d = m).
Proof.
  simpl. split; [reflexivity |]. split.
  - apply MemoryGet_missing, lookup_delete_eq.
  - intros Hm. apply delete_id, Hm.
Qed.

(** X3. A [Put] or a [Delete] on one key does not change what [Get] returns
    for another key, and [Get] does not change the store. *)
Theorem Memory_keys_are_independent
    (key other : string) (val : session) (m : MemoryStore) :
  key <> other ->
  fst (Get MemoryBackend other (snd (Put MemoryBackend key val m)))
  = fst (Get MemoryBackend other m)
  /\ fst (Get MemoryBackend other (snd (Delete MemoryBackend key m)))
     = fst (Get MemoryBackend other m)
  /\ snd (Get MemoryBackend other m) = m.
Proof.
  intros Hne. simpl. unfold MemoryGet, MemoryPut, MemoryDelete. simpl.
  rewrite lookup_insert_ne, lookup_delete_ne by exact Hne.
  destruct (m !! other); repeat apply conj; reflexivity.
Qed.

Lemma Memory_keys_are_independent_witness :
  ("alice" <> "bob")%string
  /\ fst (Get MemoryBackend "bob"
            (snd (Put MemoryBackend "alice" ∅
                    {[ "bob"%string := Records.clientStep1 5 "pw" ]})))
     = fst (Get MemoryBackend "bob"
              {[ "bob"%string := Records.clientStep1 5 "pw" ]}).
Proof.
  assert (Hne : ("alice" <> "bob")%string) by discriminate.
  split; [exact Hne |].
  exact (proj1 (Memory_keys_are_independent "alice" "bob" ∅
                  {[ "bob"%string := Records.clientStep1 5 "pw" ]} Hne)).
Defined.

(* ===================================================================== *)
(** * Further properties: what the steps reject                           *)
(* ===================================================================== *)

(** X4. Each of the five steps, called with the empty identity, returns the
    error "the user identity must not be empty" and leaves the world as it
    was: no backend call, no clock reading, no random draw, whatever the
    other arguments. *)
Theorem empty_identity_is_rejected
    {St} (c : Client.t St) (s : Server.t St) (w : World St)
    (password : string) (salt : option bytes) (B M2 v A M1 : option Z) :
  Client.Step1 c "" password w = (Err ErrEmptyUserID, w)
  /\ Client.Step2 c "" salt B w = (Err ErrEmptyUserID, w)
  /\ Client.Step3 c "" M2 w = (Err ErrEmptyUserID, w)
  /\ Server.Step1 s "" salt v w = (Err ErrEmptyUserID, w)
  /\ Server.Step2 s "" salt v A M1 w = (Err ErrEmptyUserID, w).
Proof. repeat apply conj; reflexivity. Qed.

(** X5. With an identity that is not empty, an empty password or a nil
    argument is rejected with its own error before anything else happens:
    the world is left as it was. Server.Step2 tests the salt, then the
    verifier, then the client evidence, and only then the public value. *)
Theorem nil_arguments_are_rejected
    {St} (c : Client.t St) (s : Server.t St) (w : World St) (userID : string)
    (salt : bytes) (v : Z) (osalt : option bytes) (B M2 ov A M1 : option Z) :
  userID <> ""%string ->
  Client.Step1 c userID "" w = (Err ErrEmptyPassword, w)
  /\ Client.Step2 c userID None B w = (Err ErrNilSalt, w)
  /\ Client.Step3 c userID None w = (Err ErrNilServerEvidence, w)
  /\ Server.Step1 s userID None ov w = (Err ErrNilSalt, w)
  /\ Server.Step1 s userID (Some salt) None w = (Err ErrNilVerifier, w)
  /\ Server.Step2 s userID None ov A M1 w = (Err ErrNilSalt, w)
  /\ Server.Step2 s userID (Some salt) None A M1 w = (Err ErrNilVerifier, w)
  /\ Server.Step2 s userID (Some salt) (Some v) A None w
     = (Err ErrNilClientEvidence, w).
Proof.
  intros HI.
  unfold Client.Step1, Client.Step2, Client.Step3, Server.Step1, Server.Step2.
  destruct (String.eqb_spec userID ""); [contradiction |].
  repeat apply conj; reflexivity.
Qed.

Lemma nil_arguments_are_rejected_witness :
  let c := Scenario.client SHA1.sum MemoryBackend 0 in
  let w := Scenario.world ∅ 1000 in
  ("alice" <> "")%string
  /\ Client.Step2 c "alice" None (Some 7) w = (Err ErrNilSalt, w).
Proof.
  intros c w.
  assert (HI : ("alice" <> "")%string) by discriminate.
  split; [exact HI |].
  exact (proj1 (proj2 (nil_arguments_are_rejected c
           (Scenario.server SHA1.sum MemoryBackend 0) w "alice" [] 0 None
           (Some 7) None None None None HI))).
Defined.

Section Rejections.
Context {St : Type}.
Implicit Types (w : World St) (c : Client.t St) (s : Server.t St).

(** X6. A session read in another state than the one the step requires is
    rejected with the state violation, for Client.Step2 (step1 required),
    Client.Step3 (step2) and Server.Step2 (step1). The state is tested
    before the timeout: the clock is not read, and the only backend call is
    the [Get]. *)
Theorem wrong_state_is_rejected c s userID w salt m st :
  userID <> ""%string ->
  (forall N B state0 la pw,
      Prime (Client.grp c) = Some N -> B mod N <> 0 ->
      Get (Client.backend c) userID (store w) = ((m, None), st) ->
      m !! "state"%string = Some (VState state0) ->
      m !! "lastActivity"%string = Some (VTime la) ->
      m !! "password"%string = Some (VString pw) ->
      state0 <> step1 ->
      let r := Client.Step2 c userID (Some salt) (Some B) w in
      fst r = Err (ErrStateViolation "step1")
      /\ store (snd r) = st /\ reads (snd r) = reads w
      /\ calls (snd r) = calls w ++ [CallGet userID None])
  /\ (forall M2 state0 la A M1 S,
      Get (Client.backend c) userID (store w) = ((m, None), st) ->
      m !! "state"%string = Some (VState state0) ->
      m !! "lastActivity"%string = Some (VTime la) ->
      m !! "publicClientValue"%string = Some (VBigInt A) ->
      m !! "clientEvidence"%string = Some (VBigInt M1) ->
      m !! "sessionKey"%string = Some (VBigInt S) ->
      state0 <> step2 ->
      let r := Client.Step3 c userID (Some M2) w in
      fst r = Err (ErrStateViolation "step2")
      /\ store (snd r) = st /\ reads (snd r) = reads w
      /\ calls (snd r) = calls w ++ [CallGet userID None])
  /\ (forall N v A M1 state0 la B b,
      Prime (Server.grp s) = Some N -> A mod N <> 0 ->
      Get (Server.backend s) userID (store w) = ((m, None), st) ->
      m !! "state"%string = Some (VState state0) ->
      m !! "lastActivity"%string = Some (VTime la) ->
      m !! "publicServerValue"%string = Some (VBigInt B) ->
      m !! "privateServerValue"%string = Some (VBigInt b) ->
      state0 <> step1 ->
      let r := Server.Step2 s userID (Some salt) (Some v) (Some A) (Some M1) w in
      fst r = Err (ErrStateViolation "step1")
      /\ store (snd r) = st /\ reads (snd r) = reads w
      /\ calls (snd r) = calls w ++ [CallGet userID None]).
Proof.
  intros HI. repeat apply conj.
  - intros N B state0 la pw HN HB HG Hst Hla Hpw Hne.
    unfold Client.Step2, isValidPublicValue.
    destruct (String.eqb_spec userID ""); [contradiction |].
    run_monad. rewrite HN. simpl_world.
    destruct (Z.eqb_spec (B mod N) 0); [contradiction |].
    cbn [negb]. rewrite HG. simpl_world.
    rewrite Hst, Hla, Hpw. cbn [asState asTime asString].
    destruct state0; try contradiction; repeat apply conj; reflexivity.
  - intros M2 state0 la A M1 S HG Hst Hla HA HM1 HS Hne.
    unfold Client.Step3.
    destruct (String.eqb_spec userID ""); [contradiction |].
    run_monad. rewrite HG. simpl_world.
    rewrite Hst, Hla, HA, HM1, HS. cbn [asState asTime asBigInt].
    destruct state0; try contradiction; repeat apply conj; reflexivity.
  - intros N v A M1 state0 la B b HN HA HG Hst Hla HB Hb Hne.
    unfold Server.Step2, isValidPublicValue.
    destruct (String.eqb_spec userID ""); [contradiction |].
    run_monad. rewrite HN. simpl_world.
    destruct (Z.eqb_spec (A mod N) 0); [contradiction |].
    cbn [negb]. rewrite HG. simpl_world.
    rewrite Hst, Hla, HB, Hb. cbn [asState asTime asBigInt].
    destruct state0; try contradiction; repeat apply conj; reflexivity.
Qed.

(** X7. With a timeout t > 0, a session in the required state whose
    [lastActivity] + t is before the clock reading is rejected: the client
    steps return "session timeout", Server.Step2 returns "srp timeout". The
    record is not deleted: the only backend call is the [Get]. *)
Theorem expired_session_is_rejected c s userID w salt m st la :
  userID <> ""%string ->
  m !! "lastActivity"%string = Some (VTime la) ->
  (forall N B pw,
      0 < Client.timeout c -> la + Client.timeout c < clock w (reads w) ->
      Prime (Client.grp c) = Some N -> B mod N <> 0 ->
      Get (Client.backend c) userID (store w) = ((m, None), st) ->
      m !! "state"%string = Some (VState step1) ->
      m !! "password"%string = Some (VString pw) ->
      let r := Client.Step2 c userID (Some salt) (Some B) w in
      fst r = Err ErrSessionTimeout
      /\ store (snd r) = st
      /\ calls (snd r) = calls w ++ [CallGet userID None])
  /\ (forall M2 A M1 S,
      0 < Client.timeout c -> la + Client.timeout c < clock w (reads w) ->
      Get (Client.backend c) userID (store w) = ((m, None), st) ->
      m !! "state"%string = Some (VState step2) ->
      m !! "publicClientValue"%string = Some (VBigInt A) ->
      m !! "clientEvidence"%string = Some (VBigInt M1) ->
      m !! "sessionKey"%string = Some (VBigInt S) ->
      let r := Client.Step3 c userID (Some M2) w in
      fst r = Err ErrSessionTimeout
      /\ store (snd r) = st
      /\ calls (snd r) = calls w ++ [CallGet userID None])
  /\ (forall N v A M1 B b,
      0 < Server.timeout s -> la + Server.timeout s < clock w (reads w) ->
      Prime (Server.grp s) = Some N -> A mod N <> 0 ->
      Get (Server.backend s) userID (store w) = ((m, None), st) ->
      m !! "state"%string = Some (VState step1) ->
      m !! "publicServerValue"%string = Some (VBigInt B) ->
      m !! "privateServerValue"%string = Some (VBigInt b) ->
      let r := Server.Step2 s userID (Some salt) (Some v) (Some A) (Some M1) w in
      fst r = Err ErrSrpTimeout
      /\ store (snd r) = st
      /\ calls (snd r) = calls w ++ [CallGet userID None]).
Proof.
  intros HI Hla. repeat apply conj.
  - intros N B pw Ht Hlate HN HB HG Hst Hpw.
    unfold Client.Step2, Client.hasTimedOut, isValidPublicValue.
    destruct (String.eqb_spec userID ""); [contradiction |].
    run_monad. rewrite HN. simpl_world.
    destruct (Z.eqb_spec (B mod N) 0); [contradiction |].
    cbn [negb]. rewrite HG. simpl_world.
    rewrite Hst, Hla, Hpw. cbn [asState asTime asString state_eqb negb].
    destruct (Z.eqb_spec (Client.timeout c) 0); [lia |]. simpl_world.
    unfold After, Add.
    destruct (Z.ltb_spec (la + Client.timeout c) (clock w (reads w))); [| lia].
    repeat apply conj; reflexivity.
  - intros M2 A M1 S Ht Hlate HG Hst HA HM1 HS.
    unfold Client.Step3, Client.hasTimedOut.
    destruct (String.eqb_spec userID ""); [contradiction |].
    run_monad. rewrite HG. simpl_world.
    rewrite Hst, Hla, HA, HM1, HS. cbn [asState asTime asBigInt state_eqb negb].
    destruct (Z.eqb_spec (Client.timeout c) 0); [lia |]. simpl_world.
    unfold After, Add.
    destruct (Z.ltb_spec (la + Client.timeout c) (clock w (reads w))); [| lia].
    repeat apply conj; reflexivity.
  - intros N v A M1 B b Ht Hlate HN HA HG Hst HB Hb.
    unfold Server.Step2, Server.hasTimedOut, isValidPublicValue.
    destruct (String.eqb_spec userID ""); [contradiction |].
    run_monad. rewrite HN. simpl_world.
    destruct (Z.eqb_spec (A mod N) 0); [contradiction |].
    cbn [negb]. rewrite HG. simpl_world.
    rewrite Hst, Hla, HB, Hb. cbn [asState asTime asBigInt state_eqb negb].
    destruct (Z.eqb_spec (Server.timeout s) 0); [lia |]. simpl_world.
    unfold After, Add.
    destruct (Z.ltb_spec (la + Server.timeout s) (clock w (reads w))); [| lia].
    repeat apply conj; reflexivity.
Qed.

End Rejections.

Lemma wrong_state_is_rejected_witness :
  let s := Scenario.server SHA1.sum MemoryBackend 0 in
  let c := Scenario.client SHA1.sum MemoryBackend 0 in
  let m : session :=
    <[ "state"%string := VState initial ]> (Records.serverStep1 1000 2 15) in
  let st : MemoryStore := {[ "alice"%string := m ]} in
  let w := Scenario.world st 1000 in
  let r := Server.Step2 s "alice" (Some []) (Some 12) (Some 8) (Some 1) w in
  initial <> step1
  /\ fst r = Err (ErrStateViolation "step1")
  /\ store (snd r) = st /\ reads (snd r) = reads w
  /\ calls (snd r) = calls w ++ [CallGet "alice" None].
Proof.
  intros s c m st w.
  assert (HI : ("alice" <> "")%string) by discriminate.
  assert (Hne : initial <> step1) by discriminate.
  split; [exact Hne |].
  apply (proj2 (proj2 (wrong_state_is_rejected c s "alice" w [] m st HI))
           23 12 8 1 initial 1000 (Some 2) (Some 15)).
  - reflexivity.
  - vm_compute. discriminate.
  - apply MemoryGet_found, lookup_singleton_eq.
  - vm_compute. reflexivity.
  - vm_compute. reflexivity.
  - vm_compute. reflexivity.
  - vm_compute. reflexivity.
  - exact Hne.
Defined.

Lemma expired_session_is_rejected_witness :
  let s := Scenario.server SHA1.sum MemoryBackend 30 in
  let c := Scenario.client SHA1.sum MemoryBackend 30 in
  let m : session := Records.serverStep1 1000 2 15 in
  let st : MemoryStore := {[ "alice"%string := m ]} in
  let w := Scenario.world st 1031 in
  let r := Server.Step2 s "alice" (Some []) (Some 12) (Some 8) (Some 1) w in
  1000 + Server.timeout s < clock w (reads w)
  /\ fst r = Err ErrSrpTimeout
  /\ store (snd r) = st
  /\ calls (snd r) = calls w ++ [CallGet "alice" None].
Proof.
  intros s c m st w.
  assert (HI : ("alice" <> "")%string) by discriminate.
  assert (Hlate : 1000 + Server.timeout s < clock w (reads w)) by (simpl; lia).
  assert (Hla : m !! "lastActivity"%string = Some (VTime 1000))
    by (vm_compute; reflexivity).
  split; [exact Hlate |].
  apply (proj2 (proj2 (expired_session_is_rejected c s "alice" w [] m st 1000
                         HI Hla))
           23 12 8 1 (Some 2) (Some 15)).
  - simpl. lia.
  - exact Hlate.
  - reflexivity.
  - vm_compute. discriminate.
  - apply MemoryGet_found, lookup_singleton_eq.
  - vm_compute. reflexivity.
  - vm_compute. reflexivity.
  - vm_compute. reflexivity.
Defined.

(* ===================================================================== *)
(** * Further properties: records that are absent or malformed            *)
(* ===================================================================== *)

Section Malformed.
Context {St : Type}.
Implicit Types (w : World St) (c : Client.t St) (s : Server.t St).

(** X8. A record in which a field the step reads is absent, or holds a
    value of another type than the step asserts, is rejected with the error
    naming a field ("could not read ..." or "type assertion error ..."),
    whatever its other fields, its state and its age: the fields are read
    before the state and the timeout are tested. The only backend call is
    the [Get]. *)
Theorem malformed_record_is_rejected c s userID w salt m st :
  userID <> ""%string ->
  (forall N B,
      Prime (Client.grp c) = Some N -> B mod N <> 0 ->
      Get (Client.backend c) userID (store w) = ((m, None), st) ->
      m !! "state"%string ≫= asState = None
      \/ m !! "lastActivity"%string ≫= asTime = None
      \/ m !! "password"%string ≫= asString = None ->
      let r := Client.Step2 c userID (Some salt) (Some B) w in
      (exists e, fst r = Err e /\ is_deserialization e = true)
      /\ store (snd r) = st /\ reads (snd r) = reads w
      /\ calls (snd r) = calls w ++ [CallGet userID None])
  /\ (forall M2,
      Get (Client.backend c) userID (store w) = ((m, None), st) ->
      m !! "state"%string ≫= asState = None
      \/ m !! "lastActivity"%string ≫= asTime = None
      \/ m !! "publicClientValue"%string ≫= asBigInt = None
      \/ m !! "clientEvidence"%string ≫= asBigInt = None
      \/ m !! "sessionKey"%string ≫= asBigInt = None ->
      let r := Client.Step3 c userID (Some M2) w in
      (exists e, fst r = Err e /\ is_deserialization e = true)
      /\ store (snd r) = st /\ reads (snd r) = reads w
      /\ calls (snd r) = calls w ++ [CallGet userID None])
  /\ (forall N v A M1,
      Prime (Server.grp s) = Some N -> A mod N <> 0 ->
      Get (Server.backend s) userID (store w) = ((m, None), st) ->
      m !! "state"%string ≫= asState = None
      \/ m !! "lastActivity"%string ≫= asTime = None
      \/ m !! "publicServerValue"%string ≫= asBigInt = None
      \/ m !! "privateServerValue"%string ≫= asBigInt = None ->
      let r := Server.Step2 s userID (Some salt) (Some v) (Some A) (Some M1) w in
      (exists e, fst r = Err e /\ is_deserialization e = true)
      /\ store (snd r) = st /\ reads (snd r) = reads w
      /\ calls (snd r) = calls w ++ [CallGet userID None]).
Proof.
  intros HI. repeat apply conj.
  - intros N B HN HB HG Hbad.
    unfold Client.Step2, isValidPublicValue.
    destruct (String.eqb_spec userID ""); [contradiction |].
    run_monad. rewrite HN. simpl_world.
    destruct (Z.eqb_spec (B mod N) 0); [contradiction |].
    cbn [negb]. rewrite HG. simpl_world.
    destruct (m !! "state"%string) as [x1 |]; simpl in Hbad;
      [destruct (asState x1) |]; simpl_world;
      try (repeat apply conj; try reflexivity; eexists; split; reflexivity).
    destruct (m !! "lastActivity"%string) as [x2 |]; simpl in Hbad;
      [destruct (asTime x2) |]; simpl_world;
      try (repeat apply conj; try reflexivity; eexists; split; reflexivity).
    destruct (m !! "password"%string) as [x3 |]; simpl in Hbad;
      [destruct (asString x3) |]; simpl_world;
      try (repeat apply conj; try reflexivity; eexists; split; reflexivity).
    exfalso. destruct Hbad as [H | [H | H]]; discriminate.
  - intros M2 HG Hbad.
    unfold Client.Step3.
    destruct (String.eqb_spec userID ""); [contradiction |].
    run_monad. rewrite HG. simpl_world.
    destruct (m !! "state"%string) as [x1 |]; simpl in Hbad;
      [destruct (asState x1) |]; simpl_world;
      try (repeat apply conj; try reflexivity; eexists; split; reflexivity).
    destruct (m !! "lastActivity"%string) as [x2 |]; simpl in Hbad;
      [destruct (asTime x2) |]; simpl_world;
      try (repeat apply conj; try reflexivity; eexists; split; reflexivity).
    destruct (m !! "publicClientValue"%string) as [x3 |]; simpl in Hbad;
      [destruct (asBigInt x3) |]; simpl_world;
      try (repeat apply conj; try reflexivity; eexists; split; reflexivity).
    destruct (m !! "clientEvidence"%string) as [x4 |]; simpl in Hbad;
      [destruct (asBigInt x4) |]; simpl_world;
      try (repeat apply conj; try reflexivity; eexists; split; reflexivity).
    destruct (m !! "sessionKey"%string) as [x5 |]; simpl in Hbad;
      [destruct (asBigInt x5) |]; simpl_world;
      try (repeat apply conj; try reflexivity; eexists; split; reflexivity).
    exfalso. destruct Hbad as [H | [H | [H | [H | H]]]]; discriminate.
  - intros N v A M1 HN HA HG Hbad.
    unfold Server.Step2, isValidPublicValue.
    destruct (String.eqb_spec userID ""); [contradiction |].
    run_monad. rewrite HN. simpl_world.
    destruct (Z.eqb_spec (A mod N) 0); [contradiction |].
    cbn [negb]. rewrite HG. simpl_world.
    destruct (m !! "state"%string) as [x1 |]; simpl in Hbad;
      [destruct (asState x1) |]; simpl_world;
      try (repeat apply conj; try reflexivity; eexists; split; reflexivity).
    destruct (m !! "lastActivity"%string) as [x2 |]; simpl in Hbad;
      [destruct (asTime x2) |]; simpl_world;
      try (repeat apply conj; try reflexivity; eexists; split; reflexivity).
    destruct (m !! "publicServerValue"%string) as [x3 |]; simpl in Hbad;
      [destruct (asBigInt x3) |]; simpl_world;
      try (repeat apply conj; try reflexivity; eexists; split; reflexivity).
    destruct (m !! "privateServerValue"%string) as [x4 |]; simpl in Hbad;
      [destruct (asBigInt x4) |]; simpl_world;
      try (repeat apply conj; try reflexivity; eexists; split; reflexivity).
    exfalso. destruct Hbad as [H | [H | [H | H]]]; discriminate.
Qed.

End Malformed.

(* ===================================================================== *)
(** * Further properties: the steps on the in-memory backend              *)
(* ===================================================================== *)

Lemma clientStep1_fields t pw :
  Records.clientStep1 t pw !! "state"%string = Some (VState step1)
  /\ Records.clientStep1 t pw !! "lastActivity"%string = Some (VTime t)
  /\ Records.clientStep1 t pw !! "password"%string = Some (VString pw)
  /\ Records.clientStep1 t pw !! "publicClientValue"%string = None.
Proof. repeat apply conj; reflexivity. Qed.

Lemma clientStep2_fields t A M1 S :
  Records.clientStep2 t A M1 S !! "state"%string = Some (VState step2)
  /\ Records.clientStep2 t A M1 S !! "lastActivity"%string = Some (VTime t)
  /\ Records.clientStep2 t A M1 S !! "publicClientValue"%string
     = Some (VBigInt (Some A))
  /\ Records.clientStep2 t A M1 S !! "clientEvidence"%string
     = Some (VBigInt (Some M1))
  /\ Records.clientStep2 t A M1 S !! "sessionKey"%string
     = Some (VBigInt (Some S))
  /\ Records.clientStep2 t A M1 S !! "password"%string = None.
Proof. repeat apply conj; reflexivity. Qed.

Lemma serverStep1_fields t B b :
  Records.serverStep1 t B b !! "state"%string = Some (VState step1)
  /\ Records.serverStep1 t B b !! "lastActivity"%string = Some (VTime t)
  /\ Records.serverStep1 t B b !! "publicServerValue"%string
     = Some (VBigInt (Some B))
  /\ Records.serverStep1 t B b !! "privateServerValue"%string
     = Some (VBigInt (Some b)).
Proof. repeat apply conj; reflexivity. Qed.

Section OnMemory.
Implicit Types (w : World MemoryStore) (c : Client.t MemoryStore)
  (s : Server.t MemoryStore).

(** X9. On the in-memory backend, a step that reads the session of an
    identity that has none returns the wrapped error "key not found", and
    the store is left as it was. *)
Theorem missing_session_is_rejected c s userID w salt :
  userID <> ""%string ->
  Client.backend c = MemoryBackend ->
  Server.backend s = MemoryBackend ->
  store w !! userID = None ->
  (forall N B,
      Prime (Client.grp c) = Some N -> B mod N <> 0 ->
      let r := Client.Step2 c userID (Some salt) (Some B) w in
      fst r = Err (ErrBackendGet "step2" "key not found")
      /\ store (snd r) = store w)
  /\ (forall M2,
      let r := Client.Step3 c userID (Some M2) w in
      fst r = Err (ErrBackendGet "step3" "key not found")
      /\ store (snd r) = store w)
  /\ (forall N v A M1,
      Prime (Server.grp s) = Some N -> A mod N <> 0 ->
      let r := Server.Step2 s userID (Some salt) (Some v) (Some A) (Some M1) w in
      fst r = Err (ErrBackendGet "step2" "key not found")
      /\ store (snd r) = store w).
Proof.
  intros HI Hc Hs Hm.
  pose proof (MemoryGet_missing userID (store w) Hm) as HG.
  repeat apply conj.
  - intros N B HN HB. unfold Client.Step2, isValidPublicValue.
    destruct (String.eqb_spec userID ""); [contradiction |].
    run_monad. rewrite HN, Hc. simpl_world.
    destruct (Z.eqb_spec (B mod N) 0); [contradiction |].
    cbn [negb]. rewrite HG. split; reflexivity.
  - intros M2. unfold Client.Step3.
    destruct (String.eqb_spec userID ""); [contradiction |].
    run_monad. rewrite Hc, HG. split; reflexivity.
  - intros N v A M1 HN HA. unfold Server.Step2, isValidPublicValue.
    destruct (String.eqb_spec userID ""); [contradiction |].
    run_monad. rewrite HN, Hs. simpl_world.
    destruct (Z.eqb_spec (A mod N) 0); [contradiction |].
    cbn [negb]. rewrite HG. split; reflexivity.
Qed.

Lemma Client_Step1_memory c userID password w :
  userID <> ""%string -> password <> ""%string ->
  Client.backend c = MemoryBackend ->
  let record := Records.clientStep1 (clock w (reads w)) password in
  Client.Step1 c userID password w
  = (Ok tt,
     {| store := <[ userID := record ]> (store w);
        clock := clock w;
        reads := S (reads w);
        rng := rng w;
        calls := calls w ++ [CallPut userID record None] |}).
Proof.
  intros HI HP Hc record. unfold Client.Step1.
  destruct (String.eqb_spec userID ""); [contradiction |].
  destruct (String.eqb_spec password ""); [contradiction |].
  run_monad. rewrite Hc. reflexivity.
Qed.

(** X10. Client.Step1 with an identity and a password that are not empty
    returns a nil error and leaves under the identity the record of state
    step1, the clock reading and the password, whatever was stored for that
    identity before: a [Get] of the identity then returns that record. It
    makes one backend call and reads the clock once. *)
Theorem Client_Step1_overwrites c userID password w :
  userID <> ""%string -> password <> ""%string ->
  Client.backend c = MemoryBackend ->
  let record := Records.clientStep1 (clock w (reads w)) password in
  let r := Client.Step1 c userID password w in
  fst r = Ok tt
  /\ fst (Get MemoryBackend userID (store (snd r))) = (record, None)
  /\ reads (snd r) = S (reads w)
  /\ calls (snd r) = calls w ++ [CallPut userID record None].
Proof.
  intros HI HP Hc record r. subst r.
  rewrite (Client_Step1_memory c userID password w HI HP Hc). simpl_world.
  repeat apply conj; try reflexivity.
  rewrite (MemoryGet_found userID record) by apply lookup_insert_eq.
  reflexivity.
Qed.

Lemma Server_Step1_memory s userID salt v w N g b rng' :
  userID <> ""%string ->
  Server.backend s = MemoryBackend ->
  Prime (Server.grp s) = Some N ->
  Generator (Server.grp s) = Some g ->
  Server.generatePrivateValue s N (rng w) = ((Some b, None), rng') ->
  let B := computePublicServerValue N g
             (computeMultiplier (Server.fHash s) N g) v b in
  let record := Records.serverStep1 (clock w (reads w)) B b in
  Server.Step1 s userID (Some salt) (Some v) w
  = (Ok B,
     {| store := <[ userID := record ]> (store w);
        clock := clock w;
        reads := S (reads w);
        rng := rng';
        calls := calls w ++ [CallPut userID record None] |}).
Proof.
  intros HI Hs HN Hg Hgen B record. unfold Server.Step1.
  destruct (String.eqb_spec userID ""); [contradiction |].
  run_monad. rewrite HN, Hg. simpl_world. rewrite Hgen. simpl_world.
  rewrite Hs. reflexivity.
Qed.

(** X11. Server.Step1 with valid arguments and a generator that returns b
    returns B = (k*v + g^b) mod N for the multiplier k of the group, and
    leaves under the identity the record of state step1, the clock reading,
    B and b, whatever was stored for that identity before: a [Get] of the
    identity then returns that record. *)
Theorem Server_Step1_overwrites s userID salt v w N g b rng' :
  userID <> ""%string ->
  Server.backend s = MemoryBackend ->
  Prime (Server.grp s) = Some N ->
  Generator (Server.grp s) = Some g ->
  Server.generatePrivateValue s N (rng w) = ((Some b, None), rng') ->
  let B := computePublicServerValue N g
             (computeMultiplier (Server.fHash s) N g) v b in
  let record := Records.serverStep1 (clock w (reads w)) B b in
  let r := Server.Step1 s userID (Some salt) (Some v) w in
  fst r = Ok B
  /\ fst (Get MemoryBackend userID (store (snd r))) = (record, None)
  /\ calls (snd r) = calls w ++ [CallPut userID record None].
Proof.
  intros HI Hs HN Hg Hgen B record r. subst r.
  rewrite (Server_Step1_memory s userID salt v w N g b rng' HI Hs HN Hg Hgen).
  simpl_world. repeat apply conj; try reflexivity.
  rewrite (MemoryGet_found userID record) by apply lookup_insert_eq.
  reflexivity.
Qed.

End OnMemory.

(** Unfolds the in-memory backend inside a step. *)
Ltac on_memory H :=
  rewrite ?H; cbn [Get Put Delete MemoryBackend];
  unfold MemoryGet, MemoryPut, MemoryDelete.

Section Exchange.
Implicit Types (w : World MemoryStore) (c : Client.t MemoryStore)
  (s : Server.t MemoryStore).

Lemma within_bound (t : Duration) w (i j : nat) (la : Time) :
  within t w -> la = clock w i -> t = 0 \/ clock w j <= la + t.
Proof. intros [H0 | H] ->; [left; exact H0 | right; apply H]. Qed.

Lemma Client_Step2_memory c userID salt B w m N g la pw a rng' :
  userID <> ""%string ->
  Client.backend c = MemoryBackend ->
  Prime (Client.grp c) = Some N ->
  Generator (Client.grp c) = Some g ->
  B mod N <> 0 ->
  store w !! userID = Some m ->
  m !! "state"%string = Some (VState step1) ->
  m !! "lastActivity"%string = Some (VTime la) ->
  m !! "password"%string = Some (VString pw) ->
  Client.timeout c = 0 \/ clock w (reads w) <= la + Client.timeout c ->
  Client.generatePrivateValue c N (rng w) = ((Some a, None), rng') ->
  let x := Client.computeX c (Client.fHash c) salt userID pw in
  let A := computePublicClientValue N g a in
  let k := computeMultiplier (Client.fHash c) N g in
  let u := computeScramblingParameter (Client.fHash c) N A B in
  let S := computeClientSessionKey N g k x u a B in
  let M1 := computeClientEvidence (Client.fHash c) A B S in
  let r := Client.Step2 c userID (Some salt) (Some B) w in
  fst r = Ok (A, M1)
  /\ (exists n, store (snd r)
                = <[ userID := Records.clientStep2 (clock w n) A M1 S ]> (store w))
  /\ clock (snd r) = clock w.
Proof.
  intros HI Hc HN Hg HB Hm Hst Hla Hpw Hto Hgen x A k u S M1 r.
  subst r x A k u S M1. unfold Client.Step2, Client.hasTimedOut.
  destruct (String.eqb_spec userID ""); [contradiction |].
  run_monad. rewrite HN, Hg. simpl_world.
  unfold isValidPublicValue.
  destruct (Z.eqb_spec (B mod N) 0); [contradiction |].
  cbn [negb]. on_memory Hc. rewrite Hm. simpl_world.
  rewrite Hst, Hla, Hpw. cbn [asState asTime asString state_eqb negb].
  pose proof (not_timed_out _ _ _ Hto) as Hnt.
  destruct (Z.eqb_spec (Client.timeout c) 0) as [Hz | Hz]; simpl_world.
  - rewrite Hgen. simpl_world.
    repeat apply conj; try reflexivity. eexists. reflexivity.
  - rewrite Hnt. simpl_world. rewrite Hgen. simpl_world.
    repeat apply conj; try reflexivity. eexists. reflexivity.
Qed.

Lemma Server_Step2_ok_deletes s userID salt v A M1 w M2 :
  Server.backend s = MemoryBackend ->
  fst (Server.Step2 s userID salt v A M1 w) = Ok M2 ->
  store (snd (Server.Step2 s userID salt v A M1 w)) = delete userID (store w)
  /\ (exists N, Prime (Server.grp s) = Some N).
Proof.
  intros Hs. unfold Server.Step2, Server.hasTimedOut.
  run_monad. on_memory Hs. step_cases; intros H; try discriminate;
    repeat match goal with
           | E : (_, _) = (_, _) |- _ => inversion E; subst; clear E
           end;
    (split; [reflexivity | eexists; reflexivity]).
Qed.

Lemma Client_Step3_ok_deletes c userID M2 w :
  Client.backend c = MemoryBackend ->
  fst (Client.Step3 c userID M2 w) = Ok tt ->
  store (snd (Client.Step3 c userID M2 w)) = delete userID (store w).
Proof.
  intros Hc. unfold Client.Step3, Client.hasTimedOut.
  run_monad. on_memory Hc. step_cases; intros H; try discriminate;
    repeat match goal with
           | E : (_, _) = (_, _) |- _ => inversion E; subst; clear E
           end;
    reflexivity.
Qed.

Lemma Client_Step2_ok_record c userID salt B w A M1 :
  Client.backend c = MemoryBackend ->
  fst (Client.Step2 c userID salt B w) = Ok (A, M1) ->
  exists t S,
    store (snd (Client.Step2 c userID salt B w))
    = <[ userID := Records.clientStep2 t A M1 S ]> (store w)
    /\ exists N, Prime (Client.grp c) = Some N.
Proof.
  intros Hc. unfold Client.Step2, Client.hasTimedOut.
  run_monad. on_memory Hc. step_cases; intros H; try discriminate;
    repeat match goal with
           | E : (_, _) = (_, _) |- _ => inversion E; subst; clear E
           | E : Ok _ = Ok _ |- _ => inversion E; subst; clear E
           end;
    (eexists _, _; split; [reflexivity | eexists; reflexivity]).
Qed.

End Exchange.

Ltac invert_pairs :=
  repeat match goal with
         | E : (_, _) = (_, _) |- _ => inversion E; subst; clear E
         end.

Section SingleUse.
Implicit Types (w : World MemoryStore) (c : Client.t MemoryStore)
  (s : Server.t MemoryStore).

Lemma Server_Step2_absent s userID salt v A M1 w N :
  Server.backend s = MemoryBackend ->
  Prime (Server.grp s) = Some N ->
  store w !! userID = None ->
  is_error (fst (Server.Step2 s userID salt v A M1 w)) = true.
Proof.
  intros Hs HN Hm. unfold Server.Step2.
  run_monad. on_memory Hs. rewrite HN.
  destruct (String.eqb userID ""); [reflexivity |].
  destruct salt; [| reflexivity]. destruct v; [| reflexivity].
  destruct M1; [| reflexivity]. simpl_world.
  destruct (negb (isValidPublicValue N A)); [reflexivity |].
  rewrite Hm. reflexivity.
Qed.

Lemma Client_Step3_absent c userID M2 w :
  Client.backend c = MemoryBackend ->
  store w !! userID = None ->
  is_error (fst (Client.Step3 c userID M2 w)) = true.
Proof.
  intros Hc Hm. unfold Client.Step3.
  run_monad. on_memory Hc.
  destruct (String.eqb userID ""); [reflexivity |].
  destruct M2; [| reflexivity]. simpl_world. rewrite Hm. reflexivity.
Qed.

(** X12. On the in-memory backend a finished session is gone: after a
    Server.Step2 that returned M2, and after a Client.Step3 that returned a
    nil error, the store holds nothing for the identity, and the same step
    called again for that identity returns an error whatever its other
    arguments. *)
Theorem finished_session_is_single_use c s userID w :
  Client.backend c = MemoryBackend ->
  Server.backend s = MemoryBackend ->
  (forall salt v A M1 M2,
      fst (Server.Step2 s userID salt v A M1 w) = Ok M2 ->
      let w' := snd (Server.Step2 s userID salt v A M1 w) in
      store w' !! userID = None
      /\ forall salt' v' A' M1',
           is_error (fst (Server.Step2 s userID salt' v' A' M1' w')) = true)
  /\ (forall M2,
      fst (Client.Step3 c userID M2 w) = Ok tt ->
      let w' := snd (Client.Step3 c userID M2 w) in
      store w' !! userID = None
      /\ forall M2', is_error (fst (Client.Step3 c userID M2' w')) = true).
Proof.
  intros Hc Hs. split.
  - intros salt v A M1 M2 Hok w'.
    destruct (Server_Step2_ok_deletes s userID salt v A M1 w M2 Hs Hok)
      as [Hdel [N HN]].
    assert (Hgone : store w' !! userID = None).
    { subst w'. rewrite Hdel. apply lookup_delete_eq. }
    split; [exact Hgone |]. intros salt' v' A' M1'.
    exact (Server_Step2_absent s userID salt' v' A' M1' w' N Hs HN Hgone).
  - intros M2 Hok w'.
    pose proof (Client_Step3_ok_deletes c userID M2 w Hc Hok) as Hdel.
    assert (Hgone : store w' !! userID = None).
    { subst w'. rewrite Hdel. apply lookup_delete_eq. }
    split; [exact Hgone |]. intros M2'.
    exact (Client_Step3_absent c userID M2' w' Hc Hgone).
Qed.

(** X13. After a Client.Step2 that succeeded on the in-memory backend, the
    record stored for the identity is in state step2 and has no password
    field any more. *)
Theorem password_is_dropped_by_Step2 c userID salt B w A M1 :
  Client.backend c = MemoryBackend ->
  fst (Client.Step2 c userID salt B w) = Ok (A, M1) ->
  exists m,
    store (snd (Client.Step2 c userID salt B w)) !! userID = Some m
    /\ m !! "state"%string = Some (VState step2)
    /\ m !! "publicClientValue"%string = Some (VBigInt (Some A))
    /\ m !! "clientEvidence"%string = Some (VBigInt (Some M1))
    /\ m !! "password"%string = None.
Proof.
  intros Hc Hok.
  destruct (Client_Step2_ok_record c userID salt B w A M1 Hc Hok)
    as [t [S [Hstore _]]].
  exists (Records.clientStep2 t A M1 S). rewrite Hstore.
  split; [apply lookup_insert_eq |].
  repeat apply conj; reflexivity.
Qed.

(** X14. The steps of the client out of order, on the in-memory backend.
    Client.Step3 right after Client.Step1 and Client.Step2 repeated after it
    succeeded are both rejected, and not by the test of the state: the
    record of the other step lacks a field, and the fields are read first.
    The errors are "could not read 'publicClientValue' from backend" and
    "could not read 'password' from backend". *)
Theorem client_steps_out_of_order c userID w :
  userID <> ""%string ->
  Client.backend c = MemoryBackend ->
  (forall password M2,
      password <> ""%string ->
      fst (Client.Step3 c userID (Some M2)
             (snd (Client.Step1 c userID password w)))
      = Err (ErrMissingField "publicClientValue"))
  /\ (forall salt B A M1 salt' B' N,
      fst (Client.Step2 c userID salt B w) = Ok (A, M1) ->
      Prime (Client.grp c) = Some N -> B' mod N <> 0 ->
      fst (Client.Step2 c userID (Some salt') (Some B')
             (snd (Client.Step2 c userID salt B w)))
      = Err (ErrMissingField "password")).
Proof.
  intros HI Hc. split.
  - intros password M2 HP.
    rewrite (Client_Step1_memory c userID password w HI HP Hc).
    unfold Client.Step3.
    destruct (String.eqb_spec userID ""); [contradiction |].
    run_monad. on_memory Hc. simpl_world.
    rewrite lookup_insert_eq. reflexivity.
  - intros salt B A M1 salt' B' N Hok HN HB.
    destruct (Client_Step2_ok_record c userID salt B w A M1 Hc Hok)
      as [t [S [Hstore _]]].
    unfold Client.Step2 at 1. unfold isValidPublicValue.
    destruct (String.eqb_spec userID ""); [contradiction |].
    run_monad. on_memory Hc. rewrite HN. simpl_world.
    destruct (Z.eqb_spec (B' mod N) 0); [contradiction |].
    cbn [negb]. rewrite Hstore, lookup_insert_eq. reflexivity.
Qed.

(** X15. On the in-memory backend no step changes what is stored for
    another identity than the one it is called with, whatever its
    arguments and whatever it returns. *)
Theorem other_identities_are_untouched c s userID other w :
  userID <> other ->
  Client.backend c = MemoryBackend ->
  Server.backend s = MemoryBackend ->
  (forall password,
      store (snd (Client.Step1 c userID password w)) !! other = store w !! other)
  /\ (forall salt B,
      store (snd (Client.Step2 c userID salt B w)) !! other = store w !! other)
  /\ (forall M2,
      store (snd (Client.Step3 c userID M2 w)) !! other = store w !! other)
  /\ (forall salt v,
      store (snd (Server.Step1 s userID salt v w)) !! other = store w !! other)
  /\ (forall salt v A M1,
      store (snd (Server.Step2 s userID salt v A M1 w)) !! other
      = store w !! other).
Proof.
  intros Hne Hc Hs. repeat apply conj; intros.
  - unfold Client.Step1. run_monad. on_memory Hc.
    step_cases; invert_pairs;
      rewrite ?lookup_insert_ne, ?lookup_delete_ne by exact Hne; reflexivity.
  - unfold Client.Step2, Client.hasTimedOut. run_monad. on_memory Hc.
    step_cases; invert_pairs; simpl_world;
      rewrite ?lookup_insert_ne, ?lookup_delete_ne by exact Hne; reflexivity.
  - unfold Client.Step3, Client.hasTimedOut. run_monad. on_memory Hc.
    step_cases; invert_pairs; simpl_world;
      rewrite ?lookup_insert_ne, ?lookup_delete_ne by exact Hne; reflexivity.
  - unfold Server.Step1. run_monad. on_memory Hs.
    step_cases; invert_pairs; simpl_world;
      rewrite ?lookup_insert_ne, ?lookup_delete_ne by exact Hne; reflexivity.
  - unfold Server.Step2, Server.hasTimedOut. run_monad. on_memory Hs.
    step_cases; invert_pairs; simpl_world;
      rewrite ?lookup_insert_ne, ?lookup_delete_ne by exact Hne; reflexivity.
Qed.

End SingleUse.

(* ===================================================================== *)
(** * Further properties: a whole exchange                                *)
(* ===================================================================== *)

Section WholeExchange.
Implicit Types (w : World MemoryStore) (c : Client.t MemoryStore)
  (s : Server.t MemoryStore).

(** X16. A whole exchange succeeds. Let a client, a server and a verifier
    generator share the group (N > 0, g) and the hash, the client and the
    generator share the X function (one of the two of the package), and
    each of client and server run on an in-memory backend, within its
    timeout. Let v be the verifier [GenerateVerifier] returns for the salt,
    the identity and the password, and let the private values a and b the
    generators return give public values A and B that are not multiples of
    N. Then Client.Step1, Server.Step1, Client.Step2, Server.Step2 and
    Client.Step3, each fed with what the step before returned, all return
    without error, and at the end neither store holds a session for the
    identity. *)
Theorem whole_exchange_succeeds
    c s (vg : Verifier.t) (userID password : string) (salt : bytes)
    (wc ws : World MemoryStore) (N g a b v : Z) (ra rb : Rand) :
  userID <> ""%string -> password <> ""%string ->
  0 < N -> 0 <= a -> 0 <= b ->
  Client.backend c = MemoryBackend -> Server.backend s = MemoryBackend ->
  Client.grp c = {| Prime := Some N; Generator := Some g |} ->
  Server.grp s = {| Prime := Some N; Generator := Some g |} ->
  Verifier.grp vg = {| Prime := Some N; Generator := Some g |} ->
  Server.fHash s = Client.fHash c -> Verifier.fHash vg = Client.fHash c ->
  Client.computeX c = computeXWithUsername
  \/ Client.computeX c = computeXWithoutUsername ->
  Verifier.computeX vg = Client.computeX c ->
  Client.generatePrivateValue c N (rng wc) = ((Some a, None), ra) ->
  Server.generatePrivateValue s N (rng ws) = ((Some b, None), rb) ->
  within (Client.timeout c) wc -> within (Server.timeout s) ws ->
  Verifier.GenerateVerifier vg salt userID password = Ok v ->
  let A := computePublicClientValue N g a in
  let B := computePublicServerValue N g
             (computeMultiplier (Client.fHash c) N g) v b in
  A mod N <> 0 -> B mod N <> 0 ->
  let c1 := Client.Step1 c userID password wc in
  let s1 := Server.Step1 s userID (Some salt) (Some v) ws in
  exists M1 M2,
    fst c1 = Ok tt /\ fst s1 = Ok B
    /\ let c2 := Client.Step2 c userID (Some salt) (Some B) (snd c1) in
       fst c2 = Ok (A, M1)
       /\ let s2 := Server.Step2 s userID (Some salt) (Some v) (Some A)
                      (Some M1) (snd s1) in
          fst s2 = Ok M2
          /\ let c3 := Client.Step3 c userID (Some M2) (snd c2) in
             fst c3 = Ok tt
             /\ store (snd c3) !! userID = None
             /\ store (snd s2) !! userID = None.
Proof.
  intros HI HP HN Ha Hb Hcb Hsb Hcg Hsg Hvg Hh Hvh HX HvX Hga Hgb Htc Hts Hver
         A B HA HB c1 s1.
  assert (HcN : Prime (Client.grp c) = Some N) by (rewrite Hcg; reflexivity).
  assert (Hcgen : Generator (Client.grp c) = Some g) by (rewrite Hcg; reflexivity).
  assert (HsN : Prime (Server.grp s) = Some N) by (rewrite Hsg; reflexivity).
  assert (Hsgen : Generator (Server.grp s) = Some g) by (rewrite Hsg; reflexivity).
  set (H := Client.fHash c) in *.
  set (x := Client.computeX c H salt userID password).
  assert (Hv : v = computeVerifier N g x).
  { unfold Verifier.GenerateVerifier in Hver. rewrite Hvg in Hver. simpl in Hver.
    rewrite HvX, Hvh in Hver. inversion Hver. reflexivity. }
  assert (Hx : 0 <= x) by (apply computeX_nonneg, HX).
  set (k := computeMultiplier H N g) in *.
  set (u := computeScramblingParameter H N A B).
  set (Sc := computeClientSessionKey N g k x u a B).
  set (M1 := computeClientEvidence H A B Sc).
  set (Ss := computeServerSessionKey N v u A b).
  assert (HS : Sc = Ss).
  { subst Sc Ss B A. rewrite Hv. apply session_key_algebra; try assumption.
    apply SetBytes_nonneg. }
  set (M2 := computeServerEvidence H A M1 Ss).
  exists M1, M2.
  (* the two first steps *)
  subst c1 s1.
  rewrite (Client_Step1_memory c userID password wc HI HP Hcb).
  rewrite (Server_Step1_memory s userID salt v ws N g b rb HI Hsb HsN Hsgen Hgb).
  fold H. rewrite Hh. fold k. fold B. simpl_world.
  split; [reflexivity |]. split; [reflexivity |].
  set (la1 := clock wc (reads wc)).
  set (w1 := {| store := <[userID:=Records.clientStep1 la1 password]> (store wc) |}).
  set (lb1 := clock ws (reads ws)).
  set (ws1 := {| store := <[userID:=Records.serverStep1 lb1 B b]> (store ws) |}).
  (* Client.Step2 *)
  destruct (clientStep1_fields la1 password) as [Hf1 [Hf2 [Hf3 _]]].
  assert (Hto1 : Client.timeout c = 0
                 \/ clock w1 (reads w1) <= la1 + Client.timeout c).
  { apply (within_bound _ wc (reads wc) (reads w1) la1 Htc). reflexivity. }
  destruct (Client_Step2_memory c userID salt B w1
              (Records.clientStep1 la1 password) N g la1 password a ra
              HI Hcb HcN Hcgen HB (lookup_insert_eq _ _ _) Hf1 Hf2 Hf3 Hto1 Hga)
    as [Hc2 [[n Hstore2] Hclock2]].
  cbv zeta in Hc2, Hstore2, Hclock2. fold H in Hc2, Hstore2.
  fold A in Hc2, Hstore2. fold k in Hc2, Hstore2. fold x in Hc2, Hstore2.
  fold u in Hc2, Hstore2. fold Sc in Hc2, Hstore2. fold M1 in Hc2, Hstore2.
  set (c2 := Client.Step2 c userID (Some salt) (Some B) w1) in *.
  split; [exact Hc2 |].
  (* Server.Step2 *)
  destruct (serverStep1_fields lb1 B b) as [Hg1 [Hg2 [Hg3 Hg4]]].
  assert (Hto2 : Server.timeout s = 0
                 \/ clock ws1 (reads ws1) <= lb1 + Server.timeout s).
  { apply (within_bound _ ws (reads ws) (reads ws1) lb1 Hts). reflexivity. }
  assert (HG2 : Get (Server.backend s) userID (store ws1)
                = ((Records.serverStep1 lb1 B b, None), store ws1)).
  { rewrite Hsb. apply MemoryGet_found, lookup_insert_eq. }
  pose proof (Server_Step2_checked s userID salt v A M1 ws1
                (Records.serverStep1 lb1 B b) (store ws1) N lb1 B b
                HI HsN HA HG2 Hg1 Hg2 Hg3 Hg4 Hto2) as Hs2.
  cbv zeta in Hs2. rewrite Hh in Hs2. fold H in Hs2. fold u in Hs2.
  fold Ss in Hs2. unfold M1 at 1 in Hs2. rewrite HS, Z.eqb_refl in Hs2.
  fold M2 in Hs2. destruct Hs2 as [Hs2 _].
  set (s2 := Server.Step2 s userID (Some salt) (Some v) (Some A) (Some M1) ws1)
    in *.
  split; [exact Hs2 |].
  (* Client.Step3 *)
  set (w2 := snd c2) in *.
  set (la2 := clock w1 n) in *.
  destruct (clientStep2_fields la2 A M1 Sc) as [Hk1 [Hk2 [Hk3 [Hk4 [Hk5 _]]]]].
  assert (Hto3 : Client.timeout c = 0
                 \/ clock w2 (reads w2) <= la2 + Client.timeout c).
  { rewrite Hclock2.
    apply (within_bound _ wc n (reads w2) la2 Htc). reflexivity. }
  assert (HG3 : Get (Client.backend c) userID (store w2)
                = ((Records.clientStep2 la2 A M1 Sc, None), store w2)).
  { rewrite Hcb. apply MemoryGet_found. rewrite Hstore2. apply lookup_insert_eq. }
  pose proof (Client_Step3_checked c userID M2 w2
                (Records.clientStep2 la2 A M1 Sc) (store w2) la2 A M1 Sc
                HI HG3 Hk1 Hk2 Hk3 Hk4 Hk5 Hto3) as Hc3.
  cbv zeta in Hc3. fold H in Hc3.
  assert (HM2 : computeServerEvidence H A M1 Sc = M2)
    by (unfold M2; rewrite <- HS; reflexivity).
  rewrite HM2, Z.eqb_refl in Hc3. destruct Hc3 as [Hc3 _].
  set (c3 := Client.Step3 c userID (Some M2) w2) in *.
  split; [exact Hc3 |]. split.
  - subst c3. rewrite (Client_Step3_ok_deletes c userID (Some M2) w2 Hcb Hc3).
    apply lookup_delete_eq.
  - subst s2.
    destruct (Server_Step2_ok_deletes s userID (Some salt) (Some v) (Some A)
                (Some M1) ws1 M2 Hsb Hs2) as [Hdel _].
    rewrite Hdel. apply lookup_delete_eq.
Qed.

End WholeExchange.

(* ===================================================================== *)
(** * Further properties: the private-value generator                     *)
(* ===================================================================== *)

(** X17. An error of the private-value generator is returned as it is, and
    the step stops before it writes: Server.Step1 has then made no backend
    call at all, and Client.Step2 only its [Get], so that the client record
    stays in state step1. *)
Theorem generator_failure_aborts_the_step
    {St} (c : Client.t St) (s : Server.t St) (userID : string) (salt : bytes)
    (w : World St) (err : ext_error) :
  userID <> ""%string ->
  (forall v N g pv rng',
      Prime (Server.grp s) = Some N ->
      Generator (Server.grp s) = Some g ->
      Server.generatePrivateValue s N (rng w) = ((pv, Some err), rng') ->
      let r := Server.Step1 s userID (Some salt) (Some v) w in
      fst r = Err (ErrPrivateValue err)
      /\ store (snd r) = store w /\ calls (snd r) = calls w)
  /\ (forall B m st N la pw pv rng',
      Prime (Client.grp c) = Some N -> B mod N <> 0 ->
      Get (Client.backend c) userID (store w) = ((m, None), st) ->
      m !! "state"%string = Some (VState step1) ->
      m !! "lastActivity"%string = Some (VTime la) ->
      m !! "password"%string = Some (VString pw) ->
      Client.timeout c = 0 \/ clock w (reads w) <= la + Client.timeout c ->
      Client.generatePrivateValue c N (rng w) = ((pv, Some err), rng') ->
      let r := Client.Step2 c userID (Some salt) (Some B) w in
      fst r = Err (ErrPrivateValue err)
      /\ store (snd r) = st
      /\ calls (snd r) = calls w ++ [CallGet userID None]).
Proof.
  intros HI. split.
  - intros v N g pv rng' HN Hg Hgen. unfold Server.Step1.
    destruct (String.eqb_spec userID ""); [contradiction |].
    run_monad. rewrite HN, Hg. simpl_world. rewrite Hgen.
    repeat apply conj; reflexivity.
  - intros B m st N la pw pv rng' HN HB HG Hst Hla Hpw Hto Hgen.
    unfold Client.Step2, Client.hasTimedOut, isValidPublicValue.
    destruct (String.eqb_spec userID ""); [contradiction |].
    run_monad. rewrite HN. simpl_world.
    destruct (Z.eqb_spec (B mod N) 0); [contradiction |].
    cbn [negb]. rewrite HG. simpl_world.
    rewrite Hst, Hla, Hpw. cbn [asState asTime asString state_eqb negb].
    pose proof (not_timed_out _ _ _ Hto) as Hnt.
    destruct (Z.eqb_spec (Client.timeout c) 0) as [Hz | Hz]; simpl_world.
    + rewrite Hgen. repeat apply conj; reflexivity.
    + rewrite Hnt. simpl_world. rewrite Hgen. repeat apply conj; reflexivity.
Qed.

(* ===================================================================== *)
(** * Further properties: the constructors and their options              *)
(* ===================================================================== *)

Lemma Client_applyOptions_app {St} (c : Client.t St) l1 l2 :
  Client.applyOptions c (l1 ++ l2)
  = match Client.applyOptions c l1 with
    | Ok c' => Client.applyOptions c' l2
    | Err e => Err e
    | Panic p => Panic p
    end.
Proof.
  revert c. induction l1 as [| opt l1 IH]; intros c; simpl; [reflexivity |].
  destruct (opt c); [apply IH | reflexivity | reflexivity].
Qed.

Lemma Server_applyOptions_app {St} (s : Server.t St) l1 l2 :
  Server.applyOptions s (l1 ++ l2)
  = match Server.applyOptions s l1 with
    | Ok s' => Server.applyOptions s' l2
    | Err e => Err e
    | Panic p => Panic p
    end.
Proof.
  revert s. induction l1 as [| opt l1 IH]; intros s; simpl; [reflexivity |].
  destruct (opt s); [apply IH | reflexivity | reflexivity].
Qed.

Lemma Verifier_applyOptions_app (v : Verifier.t) l1 l2 :
  Verifier.applyOptions v (l1 ++ l2)
  = match Verifier.applyOptions v l1 with
    | Ok v' => Verifier.applyOptions v' l2
    | Err e => Err e
    | Panic p => Panic p
    end.
Proof.
  revert v. induction l1 as [| opt l1 IH]; intros v; simpl; [reflexivity |].
  destruct (opt v); [apply IH | reflexivity | reflexivity].
Qed.

Lemma Client_applyOptions_ok {St} (c : Client.t St) options :
  Forall client_option_ok options ->
  exists c', Client.applyOptions c options = Ok c'
             /\ Client.backend c' = Client.backend c.
Proof.
  intros Hall. revert c.
  induction Hall as [| opt rest Hopt _ IH]; intros c; simpl.
  - exists c. split; reflexivity.
  - assert (Hnext : forall x : Client.t St,
               Client.backend x = Client.backend c ->
               exists x', Client.applyOptions x rest = Ok x'
                          /\ Client.backend x' = Client.backend c).
    { intros x Hx. destruct (IH x) as [x' [H1 H2]].
      exists x'. split; [exact H1 | congruence]. }
    destruct Hopt as [h | N g | f | d Hd]; simpl.
    + apply Hnext. reflexivity.
    + apply Hnext. reflexivity.
    + apply Hnext. reflexivity.
    + unfold Client.ClientTimeout.
      destruct (Z.ltb_spec d 0); [lia |]. apply Hnext. reflexivity.
Qed.

Lemma Server_applyOptions_ok {St} (s : Server.t St) options :
  Forall server_option_ok options ->
  exists s', Server.applyOptions s options = Ok s'
             /\ Server.backend s' = Server.backend s.
Proof.
  intros Hall. revert s.
  induction Hall as [| opt rest Hopt _ IH]; intros s; simpl.
  - exists s. split; reflexivity.
  - assert (Hnext : forall x : Server.t St,
               Server.backend x = Server.backend s ->
               exists x', Server.applyOptions x rest = Ok x'
                          /\ Server.backend x' = Server.backend s).
    { intros x Hx. destruct (IH x) as [x' [H1 H2]].
      exists x'. split; [exact H1 | congruence]. }
    destruct Hopt as [h | N g | f | d Hd]; simpl.
    + apply Hnext. reflexivity.
    + apply Hnext. reflexivity.
    + apply Hnext. reflexivity.
    + unfold Server.ServerTimeout.
      destruct (Z.ltb_spec d 0); [lia |]. apply Hnext. reflexivity.
Qed.

Lemma Verifier_applyOptions_ok (v : Verifier.t) options :
  Forall verifier_option_ok options ->
  exists v', Verifier.applyOptions v options = Ok v'.
Proof.
  intros Hall. revert v.
  induction Hall as [| opt rest Hopt _ IH]; intros v; simpl.
  - exists v. reflexivity.
  - destruct Hopt as [h | N g | f]; simpl; apply IH.
Qed.

Lemma Verifier_applyOptions_group (v v' : Verifier.t) options :
  Forall verifier_option options ->
  (exists N g, Prime (Verifier.grp v) = Some N
               /\ Generator (Verifier.grp v) = Some g) ->
  Verifier.applyOptions v options = Ok v' ->
  exists N g, Prime (Verifier.grp v') = Some N
              /\ Generator (Verifier.grp v') = Some g.
Proof.
  intros Hall. revert v.
  induction Hall as [| opt rest Hopt _ IH]; intros v Hv Hrun; simpl in Hrun.
  - inversion Hrun; subst. exact Hv.
  - destruct (opt v) as [v1 | e | p] eqn:Hv1; try discriminate.
    apply (IH v1); [| exact Hrun].
    destruct Hv as [N [g [HN Hg]]].
    destruct Hopt as [h | gr | f].
    + destruct h; inversion Hv1; subst. exists N, g. auto.
    + destruct gr as [gr |]; [| discriminate].
      unfold Verifier.VerifierGroup in Hv1.
      destruct (Prime gr) as [N' |] eqn:HN'; [| discriminate].
      destruct (Generator gr) as [g' |] eqn:Hg'; [| discriminate].
      inversion Hv1; subst. exists N', g'. auto.
    + destruct f; inversion Hv1; subst. exists N, g. auto.
Qed.

(** X18. What a constructor returns is configured. Whatever options of the
    package it is given, a client or a server that NewClient or NewServer
    returns has a prime and a generator that are not nil and a timeout
    that is not negative, and a verifier generator that NewVerifier returns
    has a prime and a generator that are not nil. *)
Theorem constructors_return_configured
    {St} (sha256 : HashFn) (b : Backend St) :
  (forall options c,
      Forall Client.exported options ->
      Client.NewClient sha256 b options = Ok c -> Client.configured c)
  /\ (forall options s,
      Forall Server.exported options ->
      Server.NewServer sha256 b options = Ok s -> Server.configured s)
  /\ (forall options v,
      Forall verifier_option options ->
      Verifier.NewVerifier sha256 options = Ok v ->
      exists N g, Prime (Verifier.grp v) = Some N
                  /\ Generator (Verifier.grp v) = Some g).
Proof.
  repeat apply conj.
  - intros options c. apply NewClient_configured.
  - intros options s. apply NewServer_configured.
  - intros options v Hall Hrun. unfold Verifier.NewVerifier in Hrun.
    refine (Verifier_applyOptions_group _ v options Hall _ Hrun).
    eexists _, _. split; reflexivity.
Qed.

(** X19. The constructors accept every list of valid options: a hash and
    an X function that are not nil, a group whose prime and generator are
    not nil, a timeout that is not negative, in any number and order. The
    client and the server they return hold the backend they were given. *)
Theorem constructors_accept_valid_options
    {St} (sha256 : HashFn) (b : Backend St) :
  (forall options,
      Forall client_option_ok options ->
      exists c, Client.NewClient sha256 b options = Ok c
                /\ Client.backend c = b)
  /\ (forall options,
      Forall server_option_ok options ->
      exists s, Server.NewServer sha256 b options = Ok s
                /\ Server.backend s = b)
  /\ (forall options,
      Forall verifier_option_ok options ->
      exists v, Verifier.NewVerifier sha256 options = Ok v).
Proof.
  repeat apply conj; intros options Hall.
  - unfold Client.NewClient.
    destruct (Client_applyOptions_ok
                {| Client.backend := b; Client.grp := defaultGroup;
                   Client.computeX := computeXWithoutUsername;
                   Client.fHash := sha256;
                   Client.generatePrivateValue := Storage.generatePrivateValue;
                   Client.timeout := 0 |} options Hall) as [c [Hc Hb]].
    exists c. split; [exact Hc | exact Hb].
  - unfold Server.NewServer.
    destruct (Server_applyOptions_ok
                {| Server.backend := b; Server.grp := defaultGroup;
                   Server.computeX := computeXWithoutUsername;
                   Server.fHash := sha256;
                   Server.generatePrivateValue := Storage.generatePrivateValue;
                   Server.timeout := 0 |} options Hall) as [s [Hs Hb]].
    exists s. split; [exact Hs | exact Hb].
  - unfold Verifier.NewVerifier. apply Verifier_applyOptions_ok, Hall.
Qed.

(** X20. After valid options, the first invalid one decides: the
    constructor returns its error, whatever options follow. A nil hash, a
    group with a nil prime or generator, a nil X function and a negative
    timeout give the four configuration errors. *)
Theorem constructor_returns_first_option_error
    {St} (sha256 : HashFn) (b : Backend St) (options rest : list _) :
  Forall (@client_option_ok St) options ->
  Client.NewClient sha256 b (options ++ Client.ClientHash None :: rest)
    = Err ErrNilHash
  /\ Client.NewClient sha256 b (options ++ Client.ClientFuncX None :: rest)
     = Err ErrNilFuncX
  /\ (forall g, Prime g = None \/ Generator g = None ->
        Client.NewClient sha256 b (options ++ Client.ClientGroup (Some g) :: rest)
        = Err ErrNilGroupComponent)
  /\ (forall d, d < 0 ->
        Client.NewClient sha256 b (options ++ Client.ClientTimeout d :: rest)
        = Err ErrNegativeTimeout).
Proof.
  intros Hall. unfold Client.NewClient.
  set (c0 := {| Client.backend := b |}).
  destruct (Client_applyOptions_ok c0 options Hall) as [c [Hc _]].
  rewrite !Client_applyOptions_app, Hc. repeat apply conj.
  - reflexivity.
  - reflexivity.
  - intros g Hg. rewrite Client_applyOptions_app, Hc.
    simpl. unfold Client.ClientGroup.
    destruct (Prime g), (Generator g); try reflexivity.
    destruct Hg; discriminate.
  - intros d Hd. rewrite Client_applyOptions_app, Hc.
    simpl. unfold Client.ClientTimeout.
    destruct (Z.ltb_spec d 0); [reflexivity | lia].
Qed.

(** X21. The last option of a kind decides the field: a client built with
    options that end in a timeout option has that timeout, and one built
    with options that end in a group option has that group; likewise for
    the server. *)
Theorem last_option_decides
    {St} (sha256 : HashFn) (b : Backend St) :
  (forall options d c,
      Client.NewClient sha256 b (options ++ [Client.ClientTimeout d]) = Ok c ->
      Client.timeout c = d /\ 0 <= d)
  /\ (forall options g c,
      Client.NewClient sha256 b (options ++ [Client.ClientGroup (Some g)]) = Ok c ->
      Client.grp c = g)
  /\ (forall options d s,
      Server.NewServer (St := St) sha256 b (options ++ [Server.ServerTimeout d])
        = Ok s ->
      Server.timeout s = d /\ 0 <= d)
  /\ (forall options g s,
      Server.NewServer (St := St) sha256 b
        (options ++ [Server.ServerGroup (Some g)]) = Ok s ->
      Server.grp s = g).
Proof.
  repeat apply conj.
  - intros options d c. unfold Client.NewClient.
    rewrite Client_applyOptions_app.
    destruct (Client.applyOptions _ options) as [c' | e | p]; try discriminate.
    simpl. unfold Client.ClientTimeout.
    destruct (Z.ltb_spec d 0); [discriminate |].
    intros Hrun. inversion Hrun; subst. split; [reflexivity | assumption].
  - intros options g c. unfold Client.NewClient.
    rewrite Client_applyOptions_app.
    destruct (Client.applyOptions _ options) as [c' | e | p]; try discriminate.
    simpl. unfold Client.ClientGroup.
    destruct (Prime g), (Generator g); try discriminate.
    intros Hrun. inversion Hrun; subst. reflexivity.
  - intros options d s. unfold Server.NewServer.
    rewrite Server_applyOptions_app.
    destruct (Server.applyOptions _ options) as [s' | e | p]; try discriminate.
    simpl. unfold Server.ServerTimeout.
    destruct (Z.ltb_spec d 0); [discriminate |].
    intros Hrun. inversion Hrun; subst. split; [reflexivity | assumption].
  - intros options g s. unfold Server.NewServer.
    rewrite Server_applyOptions_app.
    destruct (Server.applyOptions _ options) as [s' | e | p]; try discriminate.
    simpl. unfold Server.ServerGroup.
    destruct (Prime g), (Generator g); try discriminate.
    intros Hrun. inversion Hrun; subst. reflexivity.
Qed.

(* ===================================================================== *)
(** * Further properties: the verifier generator                          *)
(* ===================================================================== *)





(* ===================================================================== *)
(** * Further properties: instances                                       *)
(* ===================================================================== *)

Lemma malformed_record_is_rejected_witness :
  let s := Scenario.server SHA1.sum MemoryBackend 0 in
  let c := Scenario.client SHA1.sum MemoryBackend 0 in
  let m : session :=
    <[ "privateServerValue"%string := VString "15" ]>
      (Records.serverStep1 1000 2 15) in
  let st : MemoryStore := {[ "alice"%string := m ]} in
  let w := Scenario.world st 1000 in
  let r := Server.Step2 s "alice" (Some []) (Some 12) (Some 8) (Some 1) w in
  m !! "privateServerValue"%string ≫= asBigInt = None
  /\ (exists e, fst r = Err e /\ is_deserialization e = true)
  /\ store (snd r) = st /\ reads (snd r) = reads w
  /\ calls (snd r) = calls w ++ [CallGet "alice" None].
Proof.
  intros s c m st w.
  assert (HI : ("alice" <> "")%string) by discriminate.
  assert (Hbad : m !! "privateServerValue"%string ≫= asBigInt = None)
    by reflexivity.
  split; [exact Hbad |].
  apply (proj2 (proj2 (malformed_record_is_rejected c s "alice" w [] m st HI))
           23 12 8 1).
  - reflexivity.
  - vm_compute. discriminate.
  - apply MemoryGet_found, lookup_singleton_eq.
  - right. right. right. exact Hbad.
Defined.

Lemma missing_session_is_rejected_witness :
  let c := Scenario.client SHA1.sum MemoryBackend 0 in
  let s := Scenario.server SHA1.sum MemoryBackend 0 in
  let w := Scenario.world ∅ 1000 in
  let r := Client.Step3 c "alice" (Some 5) w in
  store w !! "alice"%string = None
  /\ fst r = Err (ErrBackendGet "step3" "key not found")
  /\ store (snd r) = store w.
Proof.
  intros c s w.
  assert (HI : ("alice" <> "")%string) by discriminate.
  assert (Hm : store w !! "alice"%string = None) by reflexivity.
  split; [exact Hm |].
  exact (proj1 (proj2 (missing_session_is_rejected c s "alice" w []
                         HI eq_refl eq_refl Hm)) 5).
Defined.

Lemma Client_Step1_overwrites_witness :
  let c := Scenario.client SHA1.sum MemoryBackend 0 in
  let w := Scenario.world
             {[ "alice"%string := Records.clientStep2 900 8 1 2 ]} 1000 in
  let record := Records.clientStep1 1000 "password123" in
  let r := Client.Step1 c "alice" "password123" w in
  fst r = Ok tt
  /\ fst (Get MemoryBackend "alice" (store (snd r))) = (record, None)
  /\ reads (snd r) = S (reads w)
  /\ calls (snd r) = calls w ++ [CallPut "alice" record None].
Proof.
  intros c w.
  apply (Client_Step1_overwrites c "alice" "password123" w);
    [discriminate | discriminate | reflexivity].
Defined.

Lemma Server_Step1_overwrites_witness :
  let s := Scenario.server SHA1.sum MemoryBackend 0 in
  let w := Scenario.world ∅ 1000 in
  let B := computePublicServerValue 23 5 (computeMultiplier SHA1.sum 23 5)
             12 15 in
  let record := Records.serverStep1 1000 B 15 in
  let r := Server.Step1 s "alice" (Some []) (Some 12) w in
  fst r = Ok B
  /\ fst (Get MemoryBackend "alice" (store (snd r))) = (record, None)
  /\ calls (snd r) = calls w ++ [CallPut "alice" record None].
Proof.
  intros s w.
  apply (Server_Step1_overwrites s "alice" [] 12 w 23 5 15 []);
    [discriminate | reflexivity | reflexivity | reflexivity | reflexivity].
Defined.

Lemma finished_session_is_single_use_witness :
  let H := SHA1.sum in
  let c := Scenario.client H MemoryBackend 0 in
  let s := Scenario.server H MemoryBackend 0 in
  let w := Scenario.world
             {[ Scenario.userID := Scenario.serverSession1 H 1000 ]} 1000 in
  let r := Server.Step2 s Scenario.userID (Some Scenario.salt)
             (Some (Scenario.v H)) (Some Scenario.A) (Some (Scenario.M1 H)) w in
  fst r = Ok (Scenario.M2 H)
  /\ store (snd r) !! Scenario.userID = None
  /\ is_error (fst (Server.Step2 s Scenario.userID (Some Scenario.salt)
                      (Some (Scenario.v H)) (Some Scenario.A)
                      (Some (Scenario.M1 H)) (snd r))) = true.
Proof.
  intros H c s w r.
  assert (Hok : fst r = Ok (Scenario.M2 H)) by (vm_compute; reflexivity).
  split; [exact Hok |].
  destruct (proj1 (finished_session_is_single_use c s Scenario.userID w
                     eq_refl eq_refl)
              (Some Scenario.salt) (Some (Scenario.v H)) (Some Scenario.A)
              (Some (Scenario.M1 H)) (Scenario.M2 H) Hok) as [Hgone Hagain].
  split; [exact Hgone | apply Hagain].
Defined.

Lemma password_is_dropped_by_Step2_witness :
  let H := SHA1.sum in
  let c := Scenario.client H MemoryBackend 0 in
  let w := Scenario.world
             {[ Scenario.userID := Scenario.clientSession1 1000 ]} 1000 in
  let r := Client.Step2 c Scenario.userID (Some Scenario.salt)
             (Some (Scenario.B H)) w in
  fst r = Ok (Scenario.A, Scenario.M1 H)
  /\ exists m,
       store (snd r) !! Scenario.userID = Some m
       /\ m !! "state"%string = Some (VState step2)
       /\ m !! "publicClientValue"%string = Some (VBigInt (Some Scenario.A))
       /\ m !! "clientEvidence"%string = Some (VBigInt (Some (Scenario.M1 H)))
       /\ m !! "password"%string = None.
Proof.
  intros H c w r.
  assert (Hok : fst r = Ok (Scenario.A, Scenario.M1 H))
    by (vm_compute; reflexivity).
  split; [exact Hok |].
  exact (password_is_dropped_by_Step2 c Scenario.userID (Some Scenario.salt)
           (Some (Scenario.B H)) w Scenario.A (Scenario.M1 H) eq_refl Hok).
Defined.

Lemma client_steps_out_of_order_witness :
  let c := Scenario.client SHA1.sum MemoryBackend 0 in
  let w := Scenario.world ∅ 1000 in
  ("alice" <> "")%string
  /\ fst (Client.Step3 c "alice" (Some 5)
            (snd (Client.Step1 c "alice" "password123" w)))
     = Err (ErrMissingField "publicClientValue").
Proof.
  intros c w.
  assert (HI : ("alice" <> "")%string) by discriminate.
  split; [exact HI |].
  apply (proj1 (client_steps_out_of_order c "alice" w HI eq_refl)).
  discriminate.
Defined.

Lemma other_identities_are_untouched_witness :
  let c := Scenario.client SHA1.sum MemoryBackend 0 in
  let s := Scenario.server SHA1.sum MemoryBackend 0 in
  let w := Scenario.world
             {[ "bob"%string := Records.clientStep1 900 "hunter2" ]} 1000 in
  ("alice" <> "bob")%string
  /\ store (snd (Client.Step1 c "alice" "password123" w)) !! "bob"%string
     = store w !! "bob"%string.
Proof.
  intros c s w.
  assert (Hne : ("alice" <> "bob")%string) by discriminate.
  split; [exact Hne |].
  exact (proj1 (other_identities_are_untouched c s "alice" "bob" w Hne
                  eq_refl eq_refl) "password123").
Defined.

Lemma generator_failure_aborts_the_step_witness :
  let failing : funcPrivateValue :=
    fun _ r => ((None, Some "unexpected EOF"%string), r) in
  let s := Server.setGeneratePrivateValue
             (Scenario.server SHA1.sum MemoryBackend 0) failing in
  let c := Scenario.client SHA1.sum MemoryBackend 0 in
  let w := Scenario.world ∅ 1000 in
  let r := Server.Step1 s "alice" (Some []) (Some 12) w in
  fst r = Err (ErrPrivateValue "unexpected EOF")
  /\ store (snd r) = store w /\ calls (snd r) = calls w.
Proof.
  intros failing s c w.
  assert (HI : ("alice" <> "")%string) by discriminate.
  apply (proj1 (generator_failure_aborts_the_step c s "alice" [] w
                  "unexpected EOF" HI) 12 23 5 None []);
    reflexivity.
Defined.

Lemma constructors_accept_valid_options_witness :
  let options : list (@Client.ClientOption MemoryStore) :=
    [Client.ClientHash (Some SHA1.sum); Client.ClientTimeout 0;
     Client.ClientFuncX (Some computeXWithUsername);
     Client.ClientGroup (Some rfc1024)] in
  Forall client_option_ok options
  /\ exists c, Client.NewClient SHA1.sum MemoryBackend options = Ok c
               /\ Client.backend c = MemoryBackend.
Proof.
  intros options.
  assert (Hall : Forall client_option_ok options).
  { repeat constructor. lia. }
  split; [exact Hall |].
  exact (proj1 (constructors_accept_valid_options SHA1.sum MemoryBackend)
           options Hall).
Defined.

Lemma constructors_return_configured_witness :
  let options : list (@Client.ClientOption MemoryStore) :=
    [Client.ClientTimeout 30; Client.ClientGroup (Some rfc1024)] in
  let c := {| Client.backend := MemoryBackend; Client.grp := rfc1024;
              Client.computeX := computeXWithoutUsername;
              Client.fHash := SHA1.sum;
              Client.generatePrivateValue := Storage.generatePrivateValue;
              Client.timeout := 30 |} in
  Client.NewClient SHA1.sum MemoryBackend options = Ok c
  /\ Client.configured c.
Proof.
  intros options c.
  assert (Hnew : Client.NewClient SHA1.sum MemoryBackend options = Ok c)
    by reflexivity.
  split; [exact Hnew |].
  apply (proj1 (constructors_return_configured SHA1.sum MemoryBackend)
           options c); [| exact Hnew].
  repeat constructor.
Defined.

Lemma constructor_returns_first_option_error_witness :
  let options : list (@Client.ClientOption MemoryStore) :=
    [Client.ClientHash (Some SHA1.sum)] in
  Forall client_option_ok options
  /\ Client.NewClient SHA1.sum MemoryBackend
       (options ++ Client.ClientTimeout (-1) :: [Client.ClientTimeout 5])
     = Err ErrNegativeTimeout.
Proof.
  intros options.
  assert (Hall : Forall client_option_ok options) by repeat constructor.
  split; [exact Hall |].
  apply (proj2 (proj2 (proj2
           (constructor_returns_first_option_error SHA1.sum MemoryBackend
              options [Client.ClientTimeout 5] Hall)))).
  lia.
Defined.

Lemma last_option_decides_witness :
  let c := {| Client.backend := MemoryBackend; Client.grp := defaultGroup;
              Client.computeX := computeXWithoutUsername;
              Client.fHash := SHA1.sum;
              Client.generatePrivateValue := Storage.generatePrivateValue;
              Client.timeout := 7 |} in
  Client.NewClient SHA1.sum MemoryBackend
    ([Client.ClientTimeout 3] ++ [Client.ClientTimeout 7]) = Ok c
  /\ Client.timeout c = 7 /\ 0 <= 7.
Proof.
  intros c.
  assert (Hnew : Client.NewClient SHA1.sum MemoryBackend
                   ([Client.ClientTimeout 3] ++ [Client.ClientTimeout 7]) = Ok c)
    by reflexivity.
  split; [exact Hnew |].
  exact (proj1 (last_option_decides SHA1.sum MemoryBackend)
           [Client.ClientTimeout 3] 7 c Hnew).
Defined.

Lemma whole_exchange_succeeds_witness :
  let c := Scenario.client SHA1.sum MemoryBackend 30 in
  let s := Scenario.server SHA1.sum MemoryBackend 30 in
  let vg := {| Verifier.grp := Scenario.grp; Verifier.fHash := SHA1.sum;
               Verifier.computeX := computeXWithUsername |} in
  let v := Scenario.v SHA1.sum in
  let wc := Scenario.world ∅ 1000 in
  let ws := Scenario.world ∅ 2000 in
  let A := computePublicClientValue Scenario.N Scenario.g Scenario.a in
  let B := computePublicServerValue Scenario.N Scenario.g
             (computeMultiplier (Client.fHash c) Scenario.N Scenario.g) v
             Scenario.b in
  Verifier.GenerateVerifier vg Scenario.salt Scenario.userID Scenario.password
  = Ok v
  /\ A mod Scenario.N <> 0 /\ B mod Scenario.N <> 0
  /\ let c1 := Client.Step1 c Scenario.userID Scenario.password wc in
     let s1 := Server.Step1 s Scenario.userID (Some Scenario.salt) (Some v) ws in
     exists M1 M2,
       fst c1 = Ok tt /\ fst s1 = Ok B
       /\ let c2 := Client.Step2 c Scenario.userID (Some Scenario.salt) (Some B)
                      (snd c1) in
          fst c2 = Ok (A, M1)
          /\ let s2 := Server.Step2 s Scenario.userID (Some Scenario.salt)
                         (Some v) (Some A) (Some M1) (snd s1) in
             fst s2 = Ok M2
             /\ let c3 := Client.Step3 c Scenario.userID (Some M2) (snd c2) in
                fst c3 = Ok tt
                /\ store (snd c3) !! Scenario.userID = None
                /\ store (snd s2) !! Scenario.userID = None.
Proof.
  intros c s vg v wc ws A B.
  assert (Hver : Verifier.GenerateVerifier vg Scenario.salt Scenario.userID
                   Scenario.password = Ok v) by reflexivity.
  assert (HA : A mod Scenario.N <> 0) by (vm_compute; discriminate).
  assert (HB : B mod Scenario.N <> 0) by (vm_compute; discriminate).
  assert (HI : Scenario.userID <> ""%string) by discriminate.
  assert (HP : Scenario.password <> ""%string) by discriminate.
  assert (HN : 0 < Scenario.N) by (unfold Scenario.N; lia).
  assert (Ha : 0 <= Scenario.a) by (unfold Scenario.a; lia).
  assert (Hb : 0 <= Scenario.b) by (unfold Scenario.b; lia).
  assert (Htc : within (Client.timeout c) wc)
    by (right; intros i j; simpl; lia).
  assert (Hts : within (Server.timeout s) ws)
    by (right; intros i j; simpl; lia).
  split; [exact Hver |]. split; [exact HA |]. split; [exact HB |].
  exact (whole_exchange_succeeds c s vg Scenario.userID Scenario.password
           Scenario.salt wc ws Scenario.N Scenario.g Scenario.a Scenario.b v
           [] [] HI HP HN Ha Hb eq_refl eq_refl eq_refl eq_refl eq_refl
           eq_refl eq_refl (or_introl eq_refl) eq_refl eq_refl eq_refl
           Htc Hts Hver HA HB).
Defined.

Lemma Memory_delete_then_get_witness :
  let m : MemoryStore := {[ "bob"%string := Records.clientStep1 5 "pw" ]} in
  m !! "alice"%string = None
  /\ snd (Delete MemoryBackend "alice" m) = m.
Proof.
  intros m.
  assert (Hm : m !! "alice"%string = None) by reflexivity.
  split; [exact Hm |].
  exact (proj2 (proj2 (Memory_delete_then_get "alice" m)) Hm).
Defined.
